(** * Legal chatbot (week8): index caching, staleness and query routing

    A shallow embedding of [week8/legal_chatbot_main.py] and
    [week8/document_processor.py], with the part of [week8/web_scraper.py]
    that the chatbot calls.

    Conventions.
    - A Python [str] is a [string] whose characters are the code points
      below 256; [len], slicing and [in] then count characters exactly as
      Python does.
    - A modification time is an integer number of clock ticks.
    - What lives outside the repository (the embedding and completion
      providers, the vector store, the search engine, the format readers)
      is either data of the modelled world or a variable of a section. *)

From Stdlib Require Import ZArith Ascii String List Bool Lia DecimalString.
From stdpp Require Import base option list strings gmap.
Import ListNotations.

Local Open Scope string_scope.

(** ** Python strings *)

Module PyStr.

(** [c.lower()] for one character: the ASCII capitals and the capitals of
    the Latin-1 block (all of 192..222 but the multiplication sign 215)
    move up by 32, everything else is left alone. *)
Definition lower_char (c : ascii) : ascii :=
  let n := N_of_ascii c in
  if ((65 <=? n) && (n <=? 90) || (192 <=? n) && (n <=? 222) && negb (n =? 215))%N
  then ascii_of_N (n + 32)
  else c.

(** [s.lower()] *)
Fixpoint lower (s : string) : string :=
  match s with
  | EmptyString => EmptyString
  | String c s' => String (lower_char c) (lower s')
  end.

(** [s.startswith(p)] *)
Fixpoint startswith (p s : string) : bool :=
  match p, s with
  | EmptyString, _ => true
  | String _ _, EmptyString => false
  | String a p', String b s' => Ascii.eqb a b && startswith p' s'
  end.

(** [k in s]: [k] occurs in [s] at some offset *)
Fixpoint contains (k s : string) : bool :=
  startswith k s ||
  match s with
  | EmptyString => false
  | String _ s' => contains k s'
  end.

(** [s[:n]] *)
Fixpoint take (n : nat) (s : string) : string :=
  match n, s with
  | O, _ => EmptyString
  | S _, EmptyString => EmptyString
  | S n', String c s' => String c (take n' s')
  end.

(** [s[n:]] *)
Fixpoint drop (n : nat) (s : string) : string :=
  match n, s with
  | O, _ => s
  | S _, EmptyString => EmptyString
  | S n', String _ s' => drop n' s'
  end.

(** [s.rfind(c)] for a character [c], [-1] when [c] does not occur;
    [i] is the index of the first character of [s]. *)
Fixpoint rfind_from (c : ascii) (i : Z) (s : string) : Z :=
  match s with
  | EmptyString => -1
  | String a s' =>
      let j := rfind_from c (i + 1) s' in
      if (0 <=? j)%Z then j else if Ascii.eqb a c then i else -1
  end.

Definition rfind (c : ascii) (s : string) : Z := rfind_from c 0 s.

(** [sep.join(parts)] *)
Fixpoint join (sep : string) (parts : list string) : string :=
  match parts with
  | [] => EmptyString
  | [p] => p
  | p :: rest => p ++ sep ++ join sep rest
  end.

(** The characters [str.strip()] removes, among the code points below 256. *)
Definition is_space (c : ascii) : bool :=
  let n := N_of_ascii c in
  ((9 <=? n) && (n <=? 13) || (28 <=? n) && (n <=? 32) || (n =? 133) || (n =? 160))%N.

(** Truth value of [s.strip()]: some character of [s] is not white space. *)
Fixpoint strip_nonempty (s : string) : bool :=
  match s with
  | EmptyString => false
  | String c s' => negb (is_space c) || strip_nonempty s'
  end.

(** [s.replace(old, '')] for a non-empty [old]: occurrences are found from
    left to right and do not overlap.  [skip] counts the characters of a
    match that are still to be dropped. *)
Fixpoint remove_from (old : string) (skip : nat) (s : string) : string :=
  match s with
  | EmptyString => EmptyString
  | String c s' =>
      match skip with
      | S k => remove_from old k s'
      | O =>
          if startswith old s
          then remove_from old (String.length old - 1) s'
          else String c (remove_from old 0 s')
      end
  end.

Definition remove (old s : string) : string := remove_from old 0 s.

(** [str(n)] for a natural number *)
Definition of_nat (n : nat) : string := NilEmpty.string_of_uint (Nat.to_uint n).

End PyStr.


Definition nl : string := String (ascii_of_nat 10) EmptyString.

(** ** Exceptions *)

(** Instances of Python's [Exception]: the [ValueError]s the repository
    raises itself, and whatever the libraries and providers raise. *)
Inductive Exception : Type :=
| ValueError (msg : string)
| OtherError (cls msg : string).

(** [str(e)] *)
Definition str (e : Exception) : string :=
  match e with
  | ValueError msg => msg
  | OtherError _ msg => msg
  end.

(** How a call ends. *)
Inductive Outcome (A : Type) : Type :=
| Returns (a : A)
| Raises (e : Exception).
Arguments Returns {A} a.
Arguments Raises {A} e.

(** ** Data model *)

(** [llama_index.core.Document], as the repository builds and reads it. *)
Record Document : Type := mkDocument {
  text : string;
  metadata : gmap string string
}.

(** The index: its document store ([index.docstore.docs]) in insertion
    order, keyed by document id. *)
Record Index : Type := mkIndex {
  docs : list (string * Document)
}.

(** One entry of the documents folder.  [reader_output] is what the reader
    the extension selects (PyPDF2, docx2txt or a UTF-8 [read]) does on the
    file. *)
Record DirEntry : Type := mkDirEntry {
  is_file : bool;
  mtime : Z;
  reader_output : Outcome string
}.

(** The part of the machine the chatbot touches.
    - [index_cache_file]: the modification time of [./index_cache.pkl],
      when the file exists;
    - [documents_dir]: the listing of [documents], when the folder exists;
    - [storage_dir]: what [load_index_from_storage] does on [./storage],
      when the folder exists;
    - [clock]: the time a file written now is stamped with;
    - [persist_fault]: the exception [storage_context.persist] raises, if
      the disk refuses the write;
    - [mistral_api_key]: the key found in the secrets or the environment. *)
Record World : Type := mkWorld {
  index_cache_file : option Z;
  documents_dir : option (list (string * DirEntry));
  storage_dir : option (Outcome Index);
  clock : Z;
  persist_fault : option Exception;
  mistral_api_key : option string
}.

(** One result of the web search ([WebScraper.extract_text_from_url]). *)
Record Snippet : Type := mkSnippet {
  url : string;
  title : string;
  content : string;
  source : string
}.

(** The dictionary [comprehensive_legal_search] returns. *)
Record SearchResults : Type := mkSearchResults {
  query_type : string;
  results : list Snippet;
  total_results : nat
}.

(** [RetrieverQueryEngine]: only the retriever's [similarity_top_k] is
    chosen by the repository. *)
Record QueryEngine : Type := mkQueryEngine {
  similarity_top_k : nat
}.

(** The attributes of a [LegalChatbot] that change after construction. *)
Record LegalChatbot : Type := mkLegalChatbot {
  index : option Index;
  query_engine : option QueryEngine
}.

(** One dictionary of the list [get_document_info] returns. *)
Record DocInfo : Type := mkDocInfo {
  filename : string;
  document_type : string;
  text_length : nat
}.

(** [get_document_info] returns a string or a list. *)
Inductive DocumentInfo : Type :=
| InfoString (s : string)
| InfoList (l : list DocInfo).

(** What the program prints, one constructor per [print] of the source. *)
Inductive Msg : Type :=
| MsgInitializing                 (* Initializing Legal Chatbot... *)
| MsgInitialized                  (* Legal Chatbot initialized successfully! *)
| MsgRebuilding                   (* Rebuilding index... *)
| MsgLoadedCachedIndex            (* Loaded cached index - startup accelerated! *)
| MsgProcessingDocuments          (* Processing documents... *)
| MsgBuildingIndex (n : nat)      (* Building vector index for n documents... *)
| MsgIndexBuiltAndCached          (* Index built and cached successfully! *)
| MsgIndexCached                  (* Index cached successfully *)
| MsgCouldNotCache (e : Exception)  (* Warning: Could not cache index: e *)
| MsgCouldNotLoad (e : Exception)   (* Could not load cached index: e *)
| MsgFolderNotFound (folder : string)   (* Documents folder 'folder' not found! *)
| MsgUnsupportedFormat (ext : string)   (* Unsupported file format: ext *)
| MsgErrorReading (kind path : string) (e : Exception)  (* Error reading kind path: e *)
| MsgProcessed (name : string)    (* Processed: name *)
| MsgTotalProcessed (n : nat)     (* Total documents processed: n *)
| MsgSearchingWeb.                (* Searching web for recent information... *)

(** The providers behind the chatbot, all outside the repository. *)
Record Providers : Type := mkProviders {
  (* VectorStoreIndex.from_documents: one embedding call per document *)
  from_documents : list Document -> Outcome Index;
  (* VectorIndexRetriever(index, similarity_top_k).retrieve: node texts *)
  retrieve : option Index -> nat -> string -> Outcome (list string);
  (* WebScraper.search_recent_cases: the search engine and the scraping *)
  search_recent_cases : string -> Outcome (list Snippet);
  (* PromptTemplate.format(context_str, web_context, query_str) *)
  template_format : string -> string -> string -> Outcome string;
  (* llm.complete, followed by str *)
  llm_complete : string -> Outcome string
}.

(** ** The monad of the program: state, output and exceptions *)

Record State : Type := mkState {
  world : World;
  self : LegalChatbot;
  stdout : list Msg
}.

Definition M (A : Type) : Type := State -> Outcome A * State.

#[global] Instance M_ret : MRet M := fun A a st => (Returns a, st).

#[global] Instance M_bind : MBind M := fun A B f m st =>
  match m st with
  | (Returns a, st') => f a st'
  | (Raises e, st') => (Raises e, st')
  end.

Definition raise {A} (e : Exception) : M A := fun st => (Raises e, st).

(** [try: body except Exception as e: handler(e)]; what [body] did to the
    state before it raised stays done. *)
Definition try_except {A} (body : M A) (handler : Exception -> M A) : M A :=
  fun st =>
    match body st with
    | (Returns a, st') => (Returns a, st')
    | (Raises e, st') => handler e st'
    end.

(** A call to code outside the repository. *)
Definition call {A} (r : Outcome A) : M A := fun st => (r, st).

Definition get_world : M World := fun st => (Returns (world st), st).
Definition get_self : M LegalChatbot := fun st => (Returns (self st), st).

Definition put_world (w : World) : M unit := fun st =>
  (Returns tt, mkState w (self st) (stdout st)).
Definition put_self (s : LegalChatbot) : M unit := fun st =>
  (Returns tt, mkState (world st) s (stdout st)).
Definition print (m : Msg) : M unit := fun st =>
  (Returns tt, mkState (world st) (self st) (stdout st ++ [m])).

Definition with_documents_dir (d : option (list (string * DirEntry))) (w : World) : World :=
  mkWorld (index_cache_file w) d (storage_dir w) (clock w) (persist_fault w)
          (mistral_api_key w).
Definition with_storage_dir (d : option (Outcome Index)) (w : World) : World :=
  mkWorld (index_cache_file w) (documents_dir w) d (clock w) (persist_fault w)
          (mistral_api_key w).
Definition with_index_cache_file (t : option Z) (w : World) : World :=
  mkWorld t (documents_dir w) (storage_dir w) (clock w) (persist_fault w)
          (mistral_api_key w).

(** ** os.path, POSIX flavour *)

Module os_path.

(** [os.path.join(a, b)] *)
Definition join (a b : string) : string :=
  if PyStr.startswith "/" b then b
  else if (String.length a =? 0)%nat
          || PyStr.startswith "/" (PyStr.drop (String.length a - 1) a)
       then a ++ b
       else a ++ "/" ++ b.

(** [os.path.basename(p)] *)
Definition basename (p : string) : string :=
  PyStr.drop (Z.to_nat (PyStr.rfind "/" p + 1)) p.

(** [os.path.splitext(p)]: the extension starts at the last dot of the last
    component, unless only dots come before it in that component. *)
Definition splitext (p : string) : string * string :=
  let sepIndex := PyStr.rfind "/" p in
  let dotIndex := PyStr.rfind "." p in
  let filenameIndex := Z.to_nat (sepIndex + 1) in
  if (sepIndex <? dotIndex)%Z
     && existsb (fun i => negb (bool_decide (String.get i p = Some "."%char)))
                (seq filenameIndex (Z.to_nat dotIndex - filenameIndex))
  then (PyStr.take (Z.to_nat dotIndex) p, PyStr.drop (Z.to_nat dotIndex) p)
  else (p, "").

End os_path.

(** ** week8/document_processor.py, class DocumentProcessor *)

Module document_processor.

(** The chatbot constructs its processor with the default folder. *)
Definition documents_folder : string := "documents".

Definition __init__ : M unit :=
  w ← get_world;
  match documents_dir w with
  | None => put_world (with_documents_dir (Some []) w)
  | Some _ => mret tt
  end.

Definition extract_text_from_pdf (pdf_path : string) (f : DirEntry) : M string :=
  try_except (call (reader_output f))
    (fun e => print (MsgErrorReading "PDF" pdf_path e);; mret "").

Definition extract_text_from_docx (docx_path : string) (f : DirEntry) : M string :=
  try_except (call (reader_output f))
    (fun e => print (MsgErrorReading "DOCX" docx_path e);; mret "").

Definition extract_text_from_txt (txt_path : string) (f : DirEntry) : M string :=
  try_except (call (reader_output f))
    (fun e => print (MsgErrorReading "TXT" txt_path e);; mret "").

(** [f] is the file found at [file_path]. *)
Definition process_document (file_path : string) (f : DirEntry) : M (option Document) :=
  let file_extension := PyStr.lower (snd (os_path.splitext file_path)) in
  let file_name := os_path.basename file_path in
  let finish (text : string) : M (option Document) :=
    if PyStr.strip_nonempty text
    then mret (Some (mkDocument text
                 (<["filename" := file_name]>
                    (<["file_path" := file_path]>
                       (<["document_type" := "legal_document"]> ∅)))))
    else mret None in
  if String.eqb file_extension ".pdf"
  then extract_text_from_pdf file_path f ≫= finish
  else if String.eqb file_extension ".docx"
  then extract_text_from_docx file_path f ≫= finish
  else if String.eqb file_extension ".txt"
  then extract_text_from_txt file_path f ≫= finish
  else print (MsgUnsupportedFormat file_extension);; mret None.

(** The loop of [process_all_documents] over [os.listdir]. *)
Fixpoint process_listing (listing : list (string * DirEntry))
    (documents : list Document) : M (list Document) :=
  match listing with
  | [] => mret documents
  | (filename, f) :: rest =>
      let file_path := os_path.join documents_folder filename in
      if is_file f
      then doc ← process_document file_path f;
           match doc with
           | Some d => print (MsgProcessed filename);;
                       process_listing rest (documents ++ [d])
           | None => process_listing rest documents
           end
      else process_listing rest documents
  end.

Definition process_all_documents : M (list Document) :=
  w ← get_world;
  match documents_dir w with
  | None => print (MsgFolderNotFound documents_folder);; mret []
  | Some listing =>
      documents ← process_listing listing [];
      print (MsgTotalProcessed (length documents));;
      mret documents
  end.

End document_processor.

(** ** week8/web_scraper.py, class WebScraper: what the chatbot calls *)

Module web_scraper.

(** [any(keyword in query_lower for keyword in keywords)] *)
Definition any_keyword_in (keywords : list string) (query_lower : string) : bool :=
  existsb (fun keyword => PyStr.contains keyword query_lower) keywords.

Definition detect_query_type (query : string) : string :=
  let query_lower := PyStr.lower query in
  let recent_keywords := ["recent"; "latest"; "new"; "2024"; "2023"; "current"; "today"] in
  let case_keywords := ["case"; "judgment"; "ruling"; "decision"; "precedent"] in
  let definition_keywords := ["what is"; "define"; "definition"; "meaning"; "explain"] in
  if any_keyword_in recent_keywords query_lower then "recent"
  else if any_keyword_in case_keywords query_lower then "case_law"
  else if any_keyword_in definition_keywords query_lower then "definition"
  else "general".

Definition comprehensive_legal_search (P : Providers) (query : string) : M SearchResults :=
  let query_type := detect_query_type query in
  let search_query :=
    if String.eqb query_type "recent" then query ++ " 2024 2023 latest judgment"
    else if String.eqb query_type "case_law" then query ++ " Supreme Court High Court precedent"
    else if String.eqb query_type "definition" then query ++ " Indian law definition legal meaning"
    else query in
  results ← call (search_recent_cases P search_query);
  mret (mkSearchResults query_type results (length results)).

End web_scraper.

(** ** week8/legal_chatbot_main.py, class LegalChatbot *)

Module legal_chatbot_main.

(** What loading an existing but empty [./storage] raises. *)
Definition empty_storage_error : Exception :=
  OtherError "FileNotFoundError" "No such file or directory: './storage/docstore.json'".

(** What [self.index.storage_context] raises while [self.index] is [None]. *)
Definition no_index_error : Exception :=
  OtherError "AttributeError" "'NoneType' object has no attribute 'storage_context'".

(** What [docstore.get_document] raises on an unknown id. *)
Definition unknown_doc_error (doc_id : string) : Exception :=
  ValueError ("doc_id " ++ doc_id ++ " not found.").

(** The construction of the two Mistral clients is taken to succeed. *)
Definition __init__ : M unit :=
  w ← get_world;
  match mistral_api_key w with
  | Some (String _ _) =>
      put_self (mkLegalChatbot None None);;
      document_processor.__init__
  | _ => raise (ValueError "MISTRAL_API_KEY not found in environment variables")
  end.

(** The loop of [_documents_changed] over [os.listdir]. *)
Fixpoint newer_than (cache_time : Z) (listing : list (string * DirEntry)) : bool :=
  match listing with
  | [] => false
  | (_, f) :: rest =>
      if is_file f && (cache_time <? mtime f)%Z then true
      else newer_than cache_time rest
  end.

Definition _documents_changed (w : World) : bool :=
  match index_cache_file w with
  | None => true
  | Some cache_time =>
      match documents_dir w with
      | None => true
      | Some listing => newer_than cache_time listing
      end
  end.

Definition save_index_cache : M unit :=
  try_except
    (w ← get_world;
     (match storage_dir w with
      | None => put_world (with_storage_dir (Some (Raises empty_storage_error)) w)
      | Some _ => mret tt
      end);;
     s ← get_self;
     idx ← match index s with
           | Some idx => mret idx
           | None => raise no_index_error
           end;
     w ← get_world;
     (match persist_fault w with
      | Some e => raise e
      | None => put_world (with_storage_dir (Some (Returns idx)) w)
      end);;
     w ← get_world;
     put_world (with_index_cache_file (Some (clock w)) w);;
     print MsgIndexCached)
    (fun e => print (MsgCouldNotCache e)).

Definition load_cached_index : M bool :=
  try_except
    (w ← get_world;
     match storage_dir w with
     | Some stored =>
         idx ← call stored;
         s ← get_self;
         put_self (mkLegalChatbot (Some idx) (query_engine s));;
         mret true
     | None => mret false
     end)
    (fun e => print (MsgCouldNotLoad e);; mret false).

(** [build_index] from [print("Processing documents...")] on. *)
Definition build_from_documents (P : Providers) : M (option Index) :=
  print MsgProcessingDocuments;;
  documents ← document_processor.process_all_documents;
  match documents with
  | [] => raise (ValueError
      "No documents found to process. Please add legal documents to the 'documents' folder.")
  | _ :: _ =>
      print (MsgBuildingIndex (length documents));;
      idx ← call (from_documents P documents);
      s ← get_self;
      put_self (mkLegalChatbot (Some idx) (query_engine s));;
      save_index_cache;;
      print MsgIndexBuiltAndCached;;
      s ← get_self;
      mret (index s)
  end.

Definition build_index (P : Providers) (force_rebuild : bool) : M (option Index) :=
  loaded ← (if negb force_rebuild
            then w ← get_world;
                 if negb (_documents_changed w) then load_cached_index else mret false
            else mret false);
  if (loaded : bool)
  then print MsgLoadedCachedIndex;;
       s ← get_self;
       mret (index s)
  else build_from_documents P.

Definition setup_query_engine (similarity_top_k : nat) : M QueryEngine :=
  s ← get_self;
  match index s with
  | None => raise (ValueError "Index not built. Call build_index() first.")
  | Some idx =>
      let engine := mkQueryEngine similarity_top_k in
      put_self (mkLegalChatbot (index s) (Some engine));;
      mret engine
  end.

Definition web_search_keywords : list string :=
  ["recent"; "latest"; "new"; "2024"; "2023"; "current"; "today";
   "recent case"; "recent judgment"; "latest ruling"; "new law";
   "current status"; "updated"; "now"; "present"].

Definition should_search_web (question : string) : bool :=
  let question_lower := PyStr.lower question in
  existsb (fun keyword => PyStr.contains keyword question_lower) web_search_keywords.

(** [enumerate(l, start)] *)
Fixpoint enumerate {A} (l : list A) (start : nat) : list (nat * A) :=
  match l with
  | [] => []
  | x :: rest => (start, x) :: enumerate rest (S start)
  end.

(** The two [web_context += ...] of one turn of the loop. *)
Definition add_result (web_context : string) (numbered : nat * Snippet) : string :=
  let (i, result) := numbered in
  (web_context
     ++ (PyStr.of_nat i ++ ". " ++ title result
           ++ " (Source: " ++ source result ++ ")" ++ nl))
    ++ ("   " ++ PyStr.take 400 (content result)
          ++ (if (400 <? String.length (content result))%nat then "..." else "")
          ++ nl ++ nl).

Definition web_context_header : string :=
  "Recent Legal Information from Web Sources:" ++ nl ++ nl.

Definition get_web_context (P : Providers) (question : string) : M string :=
  try_except
    (search_results ← web_scraper.comprehensive_legal_search P question;
     match results search_results with
     | [] => mret "No recent web information found for this query."
     | _ :: _ =>
         mret (fold_left add_result
                 (enumerate (List.firstn 2 (results search_results)) 1)
                 web_context_header)
     end)
    (fun e => mret ("Error retrieving web information: " ++ str e)).

Definition query_error (e : Exception) : string :=
  "Error processing query: " ++ str e.

(** The [web_context] of [query]: its [if self.should_search_web(question)]. *)
Definition query_web_context (P : Providers) (question : string) : M string :=
  if should_search_web question
  then print MsgSearchingWeb;; get_web_context P question
  else mret "No web search performed - using statutory documents only.".

(** The five [replace] of [query], in their order. *)
Definition remove_markdown (response_text : string) : string :=
  let response_text := PyStr.remove "**" response_text in
  let response_text := PyStr.remove "*" response_text in
  let response_text := PyStr.remove "###" response_text in
  let response_text := PyStr.remove "##" response_text in
  let response_text := PyStr.remove "#" response_text in
  response_text.

Definition query (P : Providers) (question : string) : M string :=
  s ← get_self;
  match query_engine s with
  | None => raise (ValueError "Query engine not setup. Call setup_query_engine() first.")
  | Some _ =>
      try_except
        (nodes ← call (retrieve P (index s) 3 question);
         let doc_context := PyStr.join nl nodes in
         web_context ← query_web_context P question;
         enhanced_prompt ← call (template_format P doc_context web_context question);
         response ← call (llm_complete P enhanced_prompt);
         mret (remove_markdown response))
        (fun e => mret (query_error e))
  end.

Definition initialize (P : Providers) (force_rebuild : bool) : M unit :=
  print MsgInitializing;;
  build_index P force_rebuild;;
  setup_query_engine 3;;
  print MsgInitialized.

Definition rebuild_index (P : Providers) : M unit :=
  print MsgRebuilding;;
  initialize P true.

(** [docstore.get_document(doc_id)] *)
Fixpoint get_document (store : list (string * Document)) (doc_id : string)
    : Outcome Document :=
  match store with
  | [] => Raises (unknown_doc_error doc_id)
  | (k, d) :: rest => if String.eqb k doc_id then Returns d else get_document rest doc_id
  end.

(** The loop of [get_document_info] over the ids of the store. *)
Fixpoint collect_info (store : list (string * Document)) (ids : list string)
    (doc_info : list DocInfo) : M (list DocInfo) :=
  match ids with
  | [] => mret doc_info
  | doc_id :: rest =>
      doc ← call (get_document store doc_id);
      collect_info store rest
        (doc_info ++ [mkDocInfo (default "Unknown" (metadata doc !! "filename"))
                                (default "Unknown" (metadata doc !! "document_type"))
                                (String.length (text doc))])
  end.

Definition get_document_info : M DocumentInfo :=
  s ← get_self;
  match index s with
  | None => mret (InfoString "Index not built yet.")
  | Some idx =>
      doc_info ← collect_info (docs idx) (map fst (docs idx)) [];
      mret (InfoList doc_info)
  end.

End legal_chatbot_main.

(** ** Specification vocabulary *)

(** [k] occurs in [s]: some characters, then [k], then some characters. *)
Definition occurs_in (k s : string) : Prop :=
  exists pre post : string, s = pre ++ k ++ post.

(** One file of the folder added, removed, or replaced by a different
    entry under the same name. *)
Inductive single_change : list (string * DirEntry) -> list (string * DirEntry) -> Prop :=
| file_added (l1 l2 : list (string * DirEntry)) (name : string) (f : DirEntry) :
    single_change (l1 ++ l2) (l1 ++ (name, f) :: l2)
| file_removed (l1 l2 : list (string * DirEntry)) (name : string) (f : DirEntry) :
    single_change (l1 ++ (name, f) :: l2) (l1 ++ l2)
| file_changed (l1 l2 : list (string * DirEntry)) (name : string) (f f' : DirEntry) :
    f <> f' ->
    single_change (l1 ++ (name, f) :: l2) (l1 ++ (name, f') :: l2).

(** The state after one more line of output. *)
Definition log (m : Msg) (st : State) : State :=
  mkState (world st) (self st) (stdout st ++ [m]).

(** The error [build_index] raises when the loader found no document. *)
Definition no_documents_error : Exception :=
  ValueError
    "No documents found to process. Please add legal documents to the 'documents' folder.".

(** One numbered entry of the web-context block, showing [shown] of the
    result's content. *)
Definition result_block (i : nat) (r : Snippet) (shown : string) : string :=
  PyStr.of_nat i ++ ". " ++ title r ++ " (Source: " ++ source r ++ ")" ++ nl
    ++ "   " ++ shown ++ nl ++ nl.

(** [shown] is [c] cut to [budget] characters: [c] itself when it fits,
    its first [budget] characters and the marker when it does not. *)
Definition clipped (budget : nat) (c shown : string) : Prop :=
  (budget < String.length c ->
     exists first rest, c = first ++ rest /\ String.length first = budget
                        /\ shown = first ++ "...")
  /\ (String.length c <= budget -> shown = c).

(** The record [get_document_info] makes of a stored document. *)
Definition doc_info_of (d : Document) : DocInfo :=
  mkDocInfo (default "Unknown" (metadata d !! "filename"))
            (default "Unknown" (metadata d !! "document_type"))
            (String.length (text d)).

(** The error [query] raises while no query engine is set up. *)
Definition not_initialized_error : Exception :=
  ValueError "Query engine not setup. Call setup_query_engine() first.".

(** ** Scenarios *)

Module Scenario.

(** A readable text file last modified at [t]. *)
Definition txt (t : Z) (body : string) : DirEntry := mkDirEntry true t (Returns body).

Definition constitution : string * DirEntry :=
  ("constitution.txt", txt 10 "Article 21 right to life").
Definition penal_code : string * DirEntry :=
  ("ipc.txt", txt 20 "Section 302 punishment for murder").

(** The folder when the index was built, and after [ipc.txt] was deleted. *)
Definition at_build : list (string * DirEntry) := [constitution; penal_code].
Definition after_removal : list (string * DirEntry) := [constitution].

(** The same folder after an old copy of [crpc.txt] was put back with the
    modification time it had. *)
Definition after_restore : list (string * DirEntry) :=
  [constitution; penal_code; ("crpc.txt", txt 30 "Section 438 anticipatory bail")].

(** The same folder after [ipc.txt] was edited at time 150. *)
Definition after_edit : list (string * DirEntry) :=
  [constitution; ("ipc.txt", txt 150 "Section 302, as amended")].

Definition stored_index : Index :=
  mkIndex [("doc-1", mkDocument "Article 21 right to life" ∅)].

(** A machine whose index was built and stamped at time 100. *)
Definition cached_world (listing : list (string * DirEntry)) : World :=
  mkWorld (Some 100%Z) (Some listing) (Some (Returns stored_index)) 200 None
          (Some "secret").


(** The document [process_document] makes of a text file of the folder. *)
Definition document_of (name body : string) : Document :=
  mkDocument body
    (<["filename" := name]>
       (<["file_path" := "documents/" ++ name]>
          (<["document_type" := "legal_document"]> ∅))).

(** The index a rebuild makes of [at_build]. *)
Definition rebuilt_index : Index :=
  mkIndex [("constitution.txt", document_of "constitution.txt" "Article 21 right to life");
           ("ipc.txt", document_of "ipc.txt" "Section 302 punishment for murder")].

Definition net_down : Exception := OtherError "ConnectionError" "network is unreachable".
Definition corrupt : Exception := OtherError "JSONDecodeError" "Expecting value: line 1 column 1".

(** Providers for the scenarios: the index keys each document by its file
    name, retrieval hands back the first [k] texts, the search engine is
    unreachable, the template lists its three slots, and the model answers
    with one fixed sentence. *)
Definition providers : Providers :=
  mkProviders
    (fun documents =>
       Returns (mkIndex (map (fun d => (default "" (metadata d !! "filename"), d)) documents)))
    (fun idx k _ =>
       Returns (firstn k (map (fun entry => text (snd entry))
                              (match idx with Some i => docs i | None => [] end))))
    (fun _ => Raises net_down)
    (fun context_str web_context query_str =>
       Returns ("Context: " ++ context_str ++ " Web: " ++ web_context
                  ++ " Query: " ++ query_str))
    (fun _ => Returns "Article 21 protects **life** and personal liberty.").

(** Just constructed, with a fresh cache on disk whose stores cannot be read. *)
Definition corrupt_cache : State :=
  mkState
    (mkWorld (Some 100%Z) (Some at_build) (Some (Raises corrupt)) 200 None (Some "secret"))
    (mkLegalChatbot None None) [].

(** Just constructed, and the documents folder has been deleted since. *)
Definition missing_folder : State :=
  mkState
    (mkWorld None None None 200 None (Some "secret"))
    (mkLegalChatbot None None) [].

(** Before the constructor has run. *)
Definition boot : State :=
  mkState (cached_world at_build) (mkLegalChatbot None None) [].

(** Initialized: index loaded and query engine set up. *)
Definition ready : State :=
  mkState (cached_world at_build)
    (mkLegalChatbot (Some stored_index) (Some (mkQueryEngine 3))) [].


(** A text of [n] characters. *)
Fixpoint filler (n : nat) : string :=
  match n with
  | O => EmptyString
  | S n' => String "x" (filler n')
  end.

Definition long_result : Snippet :=
  mkSnippet "https://www.livelaw.in/a" "Bail ruling" (filler 500) "www.livelaw.in".
Definition short_result : Snippet :=
  mkSnippet "https://indiankanoon.org/b" "Bail order" (filler 300) "indiankanoon.org".
Definition third_result : Snippet :=
  mkSnippet "https://www.barandbench.com/c" "Bail note" (filler 120) "www.barandbench.com".

(** The same providers with the search engine back and returning three
    results. *)
Definition providers_online : Providers :=
  mkProviders (from_documents providers) (retrieve providers)
    (fun _ => Returns [long_result; short_result; third_result])
    (template_format providers) (llm_complete providers).

End Scenario.

(** ** week8/web_scraper.py, class WebScraper: the search itself *)

(** How a call ends, as a monad of its own for the code that keeps no state. *)
#[global] Instance Outcome_ret : MRet Outcome := fun A a => Returns a.

#[global] Instance Outcome_bind : MBind Outcome := fun A B f r =>
  match r with
  | Returns a => f a
  | Raises e => Raises e
  end.

(** [try: body except: handler] without state. *)
Definition rescue {A} (body : Outcome A) (handler : Exception -> Outcome A) : Outcome A :=
  match body with
  | Returns a => Returns a
  | Raises e => handler e
  end.

(** What iterating a generator of URLs does: it yields [yielded] in order,
    and then stops, or raises [failure]. *)
Record UrlStream : Type := mkUrlStream {
  yielded : list string;
  failure : option Exception
}.

(** The network behind the scraper. *)
Record Web : Type := mkWeb {
  (* googlesearch.search(query, num_results=n, stop=n, pause=2) *)
  google : string -> nat -> UrlStream;
  (* urlparse(url).netloc *)
  netloc : string -> Outcome string;
  (* session.get, raise_for_status and BeautifulSoup: title_text, and
     content_text once re.sub has squeezed its white space *)
  page : string -> Outcome (string * string)
}.

Module WebScraper.

Definition trusted_sources : list string :=
  ["indiankanoon.org"; "main.sci.gov.in"; "livelaw.in"; "barandbench.com";
   "theleaflet.in"; "scobserver.in"; "legally.co.in"; "taxguru.in"].

Definition is_trusted_source (W : Web) (url : string) : bool :=
  match netloc W url with
  | Returns n =>
      let domain := PyStr.lower n in
      existsb (fun source => PyStr.contains source domain) trusted_sources
  | Raises _ => false
  end.

(** The first loop of [google_search_legal]: trusted URLs are collected
    until there are [num_results] of them; the generator is asked for
    nothing more after the [break]. *)
Fixpoint collect_trusted (W : Web) (num_results : nat) (search_results : list string)
    (failure : option Exception) (urls : list string) : Outcome (list string) :=
  match search_results with
  | [] => match failure with
          | Some e => Raises e
          | None => Returns urls
          end
  | url :: rest =>
      if is_trusted_source W url
      then let urls := (urls ++ [url])%list in
           if (num_results <=? length urls)%nat then Returns urls
           else collect_trusted W num_results rest failure urls
      else collect_trusted W num_results rest failure urls
  end.

(** The second loop: new URLs are added while there is room; the generator
    is read to its end. *)
Fixpoint collect_broader (num_results : nat) (broader_results : list string)
    (failure : option Exception) (urls : list string) : Outcome (list string) :=
  match broader_results with
  | [] => match failure with
          | Some e => Raises e
          | None => Returns urls
          end
  | url :: rest =>
      if negb (bool_decide (url ∈ urls)) && (length urls <? num_results)%nat
      then collect_broader num_results rest failure (urls ++ [url])%list
      else collect_broader num_results rest failure urls
  end.

Definition google_search_legal (W : Web) (query : string) (num_results : nat)
    : Outcome (list string) :=
  rescue
    (let enhanced_query :=
       query ++ " India law judgment case site:indiankanoon.org OR site:livelaw.in OR site:barandbench.com" in
     let search_results := google W enhanced_query (num_results * 2) in
     urls ← collect_trusted W num_results (yielded search_results)
              (failure search_results) [];
     urls ← (if (length urls <? 3)%nat
             then let broader_query :=
                    query ++ " Supreme Court India High Court judgment 2024 2023" in
                  let broader_results := google W broader_query 10 in
                  collect_broader num_results (yielded broader_results)
                    (failure broader_results) urls
             else mret urls);
     mret (firstn num_results urls))
    (fun _ => mret []).

Definition error_page_content : string := "Could not extract content from this page".

Definition extract_text_from_url (W : Web) (url : string) : Outcome Snippet :=
  rescue
    ('(title_text, content_text) ← page W url;
     let content_text := PyStr.take 3000 content_text in
     source ← netloc W url;
     mret (mkSnippet url title_text content_text source))
    (fun _ =>
       source ← (match url with
                 | EmptyString => mret "unknown"
                 | String _ _ => netloc W url
                 end);
       mret (mkSnippet url "Error loading page" error_page_content source)).

(** The loop of [search_recent_cases] over the URLs. *)
Fixpoint extract_all (W : Web) (urls : list string) (results : list Snippet)
    : Outcome (list Snippet) :=
  match urls with
  | [] => mret results
  | url :: rest =>
      content_data ← extract_text_from_url W url;
      if negb (String.eqb (content content_data) "")
         && (100 <? String.length (content content_data))%nat
      then extract_all W rest (results ++ [content_data])%list
      else extract_all W rest results
  end.

Definition search_recent_cases (W : Web) (query : string) : Outcome (list Snippet) :=
  urls ← google_search_legal W query 5;
  match urls with
  | [] => mret []
  | _ :: _ => extract_all W urls []
  end.

Definition search_legal_definition (W : Web) (term : string) : Outcome (list Snippet) :=
  let query := "legal definition " ++ term ++ " Indian law meaning explanation" in
  search_recent_cases W query.

(** The first loop of [search_case_law], with its [break]. *)
Fixpoint search_each (W : Web) (queries : list string) (all_results : list Snippet)
    : Outcome (list Snippet) :=
  match queries with
  | [] => mret all_results
  | query :: rest =>
      results ← search_recent_cases W query;
      let all_results := (all_results ++ results)%list in
      if (5 <=? length all_results)%nat then mret all_results
      else search_each W rest all_results
  end.

(** The second loop: the first result of each URL is kept. *)
Fixpoint unique_by_url (all_results : list Snippet) (unique_results : list Snippet)
    (seen_urls : gset string) : list Snippet :=
  match all_results with
  | [] => unique_results
  | result :: rest =>
      if bool_decide (url result ∈ seen_urls)
      then unique_by_url rest unique_results seen_urls
      else unique_by_url rest (unique_results ++ [result])%list
                         ({[url result]} ∪ seen_urls)
  end.

Definition search_case_law (W : Web) (case_name_or_topic : string)
    : Outcome (list Snippet) :=
  let queries :=
    [case_name_or_topic ++ " Supreme Court India judgment";
     case_name_or_topic ++ " High Court India case law";
     case_name_or_topic ++ " legal precedent India"] in
  all_results ← search_each W queries [];
  mret (firstn 5 (unique_by_url all_results [] ∅)).

End WebScraper.

(** ** More specification vocabulary *)

(** [s] without the characters [drop] holds of, the others in their order. *)
Fixpoint without (drop : ascii -> bool) (s : string) : string :=
  match s with
  | EmptyString => EmptyString
  | String c s' => if drop c then without drop s' else String c (without drop s')
  end.

(** The two characters [query] cleans its answer of. *)
Definition is_markup (c : ascii) : bool := Ascii.eqb c "*" || Ascii.eqb c "#".

(** [n] times the character [c]. *)
Fixpoint repeated (c : ascii) (n : nat) : string :=
  match n with
  | O => EmptyString
  | S n' => String c (repeated c n')
  end.

(** The extensions [process_document] has a reader for. *)
Definition supported_extension (ext : string) : bool :=
  String.eqb ext ".pdf" || String.eqb ext ".docx" || String.eqb ext ".txt".

(** The extension [process_document] sees of the entry called [name]. *)
Definition extension_of (name : string) : string :=
  PyStr.lower (snd (os_path.splitext
                      (os_path.join document_processor.documents_folder name))).

(** An entry the loader can make a document of: a regular file with a
    supported extension whose reader hands back [body], and [body] is not
    blank. *)
Definition loadable (name : string) (f : DirEntry) (body : string) : Prop :=
  is_file f = true
  /\ supported_extension (extension_of name) = true
  /\ reader_output f = Returns body
  /\ PyStr.strip_nonempty body = true.

(** The state with another listing of the documents folder. *)
Definition with_listing (listing : list (string * DirEntry)) (st : State) : State :=
  mkState (with_documents_dir (Some listing) (world st)) (self st) (stdout st).

(** What the loader makes of one entry called [name]. *)
Definition document_for (name : string) (f : DirEntry) : option Document :=
  if is_file f && supported_extension (extension_of name)
  then match reader_output f with
       | Returns body =>
           if PyStr.strip_nonempty body
           then Some (mkDocument body
                  (<["filename" := os_path.basename
                                     (os_path.join document_processor.documents_folder name)]>
                     (<["file_path" := os_path.join document_processor.documents_folder name]>
                        (<["document_type" := "legal_document"]> ∅))))
           else None
       | Raises _ => None
       end
  else None.

(** What the loader makes of a listing. *)
Definition documents_of (listing : list (string * DirEntry)) : list Document :=
  omap (fun entry => document_for (fst entry) (snd entry)) listing.

(** Same files and same chatbot, maybe more output. *)
Definition quiet (st st' : State) : Prop :=
  world st' = world st /\ self st' = self st.

(** The metadata the loader gives the document of the entry [name]. *)
Definition metadata_of (name : string) : gmap string string :=
  <["filename" := name]>
    (<["file_path" := "documents/" ++ name]>
       (<["document_type" := "legal_document"]> ∅)).

Module Cases.

(** A folder with a sub-folder, a scan whose reader fails, a spreadsheet,
    a blank note and one good file with a capital extension. *)
Definition mixed_folder : list (string * DirEntry) :=
  [("archive", mkDirEntry false 5 (Raises (OtherError "IsADirectoryError" "archive")));
   ("scan.pdf", mkDirEntry true 6 (Raises (OtherError "PdfReadError" "EOF marker not found")));
   ("fees.xlsx", mkDirEntry true 7 (Returns "1;2;3"));
   ("blank.txt", mkDirEntry true 8 (Returns "   "));
   ("CrPC.TXT", mkDirEntry true 9 (Returns "Section 438 anticipatory bail"))].

Definition mixed : State :=
  mkState (Scenario.cached_world mixed_folder) (mkLegalChatbot None None) [].

End Cases.

(** The machine with a disk that takes, or refuses, the next write. *)
Definition with_persist_fault (fault : option Exception) (st : State) : State :=
  mkState (mkWorld (index_cache_file (world st)) (documents_dir (world st))
                   (storage_dir (world st)) (clock (world st)) fault
                   (mistral_api_key (world st)))
          (self st) (stdout st).

(** A new process on the machine [w]: the chatbot just constructed. *)
Definition restarted (w : World) : State :=
  mkState w (mkLegalChatbot None None) [].

(** The providers with another search engine. *)
Definition with_search (search : string -> Outcome (list Snippet)) (P : Providers)
    : Providers :=
  mkProviders (from_documents P) (retrieve P) search (template_format P) (llm_complete P).

Definition no_web_search : string :=
  "No web search performed - using statutory documents only.".

Module Disk.

(** The cache of [Scenario.corrupt_cache] on a disk that is full. *)
Definition full : State :=
  with_persist_fault (Some (OtherError "OSError" "No space left on device"))
    Scenario.corrupt_cache.

End Disk.

(** The regular files of a listing. *)
Definition regular_files (listing : list (string * DirEntry)) : list (string * DirEntry) :=
  List.filter (fun entry => is_file (snd entry)) listing.

(** The two queries [google_search_legal] sends for [query]. *)
Definition focused_query (query : string) : string :=
  query ++ " India law judgment case site:indiankanoon.org OR site:livelaw.in OR site:barandbench.com".
Definition broader_query (query : string) : string :=
  query ++ " Supreme Court India High Court judgment 2024 2023".

Module Net.

(** A network where the focused search yields four URLs, two of them
    trusted, and the broader search three more; one page is long, one
    cannot be fetched and one is short. *)
Definition web : Web :=
  mkWeb
    (fun query n =>
       if PyStr.contains "site:" query
       then mkUrlStream ["https://www.livelaw.in/a"; "https://spam.example/x";
                         "https://indiankanoon.org/b"; "https://blog.example/y"] None
       else mkUrlStream ["https://www.livelaw.in/a"; "https://news.example/n";
                         "https://main.sci.gov.in/c"] None)
    (fun url =>
       if PyStr.contains "livelaw" url then Returns "www.LiveLaw.in"
       else if PyStr.contains "indiankanoon" url then Returns "indiankanoon.org"
       else if PyStr.contains "sci.gov" url then Returns "main.sci.gov.in"
       else Returns "other.example")
    (fun url =>
       if PyStr.contains "livelaw" url then Returns ("Bail ruling", Scenario.filler 3500)
       else if PyStr.contains "indiankanoon" url then Raises Scenario.net_down
       else if PyStr.contains "sci.gov" url then Returns ("Cause list", Scenario.filler 150)
       else Returns ("News", Scenario.filler 80)).

End Net.

Module NetResults.

(** What [search_recent_cases] finds on [Net.web]: the long page cut to
    3000 characters and the page of 150 characters. *)
Definition found : list Snippet :=
  [mkSnippet "https://www.livelaw.in/a" "Bail ruling" (Scenario.filler 3000) "www.LiveLaw.in";
   mkSnippet "https://main.sci.gov.in/c" "Cause list" (Scenario.filler 150) "main.sci.gov.in"].

(** A machine whose marker is fresh and whose storage folder is gone. *)
Definition storage_gone : State :=
  mkState
    (mkWorld (Some 100%Z) (Some Scenario.at_build) None 200 None (Some "secret"))
    (mkLegalChatbot None None) [].

End NetResults.

(** * Properties *)

Import legal_chatbot_main.

(** Unfolds the monad down to pairs of outcome and state. *)
Ltac run :=
  repeat (unfold mbind, M_bind, mret, M_ret, try_except, call, raise,
            get_world, get_self, put_world, put_self, print in *;
          simpl in *).

(** Unfolds the first bind of the goal, run on a state. *)
Ltac step := unfold mbind at 1; unfold M_bind at 1; cbv iota beta.

(** ** Strings *)

Section StringFacts.

Example lower_latin1 :
  PyStr.lower "What's NEW in 2024?" = "what's new in 2024?"
  /\ PyStr.lower (String (ascii_of_nat 201) "COLE") = String (ascii_of_nat 233) "cole"
  /\ PyStr.lower (String (ascii_of_nat 215) "") = String (ascii_of_nat 215) "".
Proof. repeat split. Qed.

Example remove_leftmost : PyStr.remove "**" "a**b***c" = "ab*c".
Proof. reflexivity. Qed.

Example splitext_cases :
  os_path.splitext "documents/a.b.PDF" = ("documents/a.b", ".PDF")
  /\ os_path.splitext "documents/.bashrc" = ("documents/.bashrc", "")
  /\ os_path.splitext "docu.ments/abc" = ("docu.ments/abc", "")
  /\ os_path.basename "documents/a.pdf" = "a.pdf"
  /\ os_path.join "documents" "a.pdf" = "documents/a.pdf".
Proof. repeat split. Qed.

Lemma append_assoc (a b c : string) : (a ++ b) ++ c = a ++ (b ++ c).
Proof.
  induction a as [|x a IH]; [reflexivity|].
  change (String x ((a ++ b) ++ c) = String x (a ++ (b ++ c))).
  rewrite IH. reflexivity.
Qed.

Lemma append_empty_r (a : string) : a ++ "" = a.
Proof.
  induction a as [|x a IH]; [reflexivity|].
  change (String x (a ++ "") = String x a). rewrite IH. reflexivity.
Qed.

Lemma startswith_app (p rest : string) : PyStr.startswith p (p ++ rest) = true.
Proof.
  induction p as [|c p IH]; simpl; [reflexivity|].
  rewrite Ascii.eqb_refl. exact IH.
Qed.

Lemma startswith_inv (p s : string) :
  PyStr.startswith p s = true -> exists rest, s = p ++ rest.
Proof.
  revert s. induction p as [|c p IH]; intros s H; simpl in *.
  - exists s. reflexivity.
  - destruct s as [|d s]; [discriminate|].
    apply andb_true_iff in H as [Hc Hp].
    apply Ascii.eqb_eq in Hc. subst d.
    destruct (IH _ Hp) as [rest ->]. exists rest. reflexivity.
Qed.

Lemma contains_at_start (k s : string) :
  PyStr.startswith k s = true -> PyStr.contains k s = true.
Proof.
  intros H. destruct s; simpl; rewrite H; reflexivity.
Qed.

(** [in] finds exactly the occurrences. *)
Lemma contains_occurs (k s : string) :
  PyStr.contains k s = true <-> occurs_in k s.
Proof.
  split.
  - induction s as [|c s IH]; simpl; intros H.
    + rewrite orb_false_r in H. apply startswith_inv in H as [rest ->].
      exists "", rest. reflexivity.
    + apply orb_true_iff in H as [H|H].
      * apply startswith_inv in H as [rest ->]. exists "", rest. reflexivity.
      * destruct (IH H) as (pre & post & ->).
        exists (String c pre), post. reflexivity.
  - intros (pre & post & ->).
    induction pre as [|c pre IH].
    + change ("" ++ k ++ post) with (k ++ post).
      apply contains_at_start, startswith_app.
    + change (PyStr.contains k (String c (pre ++ k ++ post)) = true).
      simpl. rewrite IH. apply orb_true_r.
Qed.

Lemma contains_false_not_occurs (k s : string) :
  PyStr.contains k s = false -> ~ occurs_in k s.
Proof.
  intros H Hocc. apply contains_occurs in Hocc. congruence.
Qed.

Lemma take_drop (n : nat) (s : string) : PyStr.take n s ++ PyStr.drop n s = s.
Proof.
  revert s. induction n as [|n IH]; intros s; [reflexivity|].
  destruct s as [|c s]; [reflexivity|]. simpl.
  change (String c (PyStr.take n s ++ PyStr.drop n s) = String c s).
  rewrite IH. reflexivity.
Qed.

Lemma take_length (n : nat) (s : string) :
  n <= String.length s -> String.length (PyStr.take n s) = n.
Proof.
  revert s. induction n as [|n IH]; intros s H; [reflexivity|].
  destruct s as [|c s]; simpl in *; [lia|].
  rewrite IH by lia. reflexivity.
Qed.

Lemma take_all (n : nat) (s : string) :
  String.length s <= n -> PyStr.take n s = s.
Proof.
  revert s. induction n as [|n IH]; intros s H.
  - destruct s; simpl in *; [reflexivity|lia].
  - destruct s as [|c s]; simpl in *; [reflexivity|].
    rewrite IH by lia. reflexivity.
Qed.

End StringFacts.

(** ** Routing: [should_search_web] *)

Section Routing.

Variable question : string.

Lemma should_search_web_spec :
  should_search_web question = true <->
  exists keyword, In keyword web_search_keywords
                  /\ occurs_in keyword (PyStr.lower question).
Proof.
  unfold should_search_web. rewrite existsb_exists.
  split; intros (k & Hin & Hk); exists k; split; try assumption;
    apply contains_occurs; assumption.
Qed.

(** C6.  The routing decision is a function of the lowered query text and
    of nothing else: two queries that lower to the same text are routed
    alike; a query whose lowered text contains "latest" is sent to the web;
    a query whose lowered text contains none of the keywords is not. *)
Theorem should_search_web_routing :
  (forall other, PyStr.lower other = PyStr.lower question ->
                 should_search_web other = should_search_web question)
  /\ (occurs_in "latest" (PyStr.lower question) -> should_search_web question = true)
  /\ ((forall keyword, In keyword web_search_keywords ->
                       ~ occurs_in keyword (PyStr.lower question)) ->
      should_search_web question = false).
Proof.
  split; [|split].
  - intros other Heq. unfold should_search_web. rewrite Heq. reflexivity.
  - intros Hocc. apply should_search_web_spec.
    exists "latest". split; [|exact Hocc].
    unfold web_search_keywords. simpl. tauto.
  - intros Hnone. apply not_true_is_false. intros Htrue.
    apply should_search_web_spec in Htrue as (k & Hin & Hk).
    exact (Hnone k Hin Hk).
Qed.

(** C9.  The match has no word boundaries: whatever stands before and
    after a keyword in the lowered query, letters included, the query is
    sent to the web. *)
Theorem should_search_web_embedded_keyword (keyword pre post : string) :
  In keyword web_search_keywords ->
  PyStr.lower question = pre ++ keyword ++ post ->
  should_search_web question = true.
Proof.
  intros Hin Heq. apply should_search_web_spec.
  exists keyword. split; [exact Hin|]. exists pre, post. exact Heq.
Qed.

End Routing.

Lemma should_search_web_routing_witness :
  should_search_web "What is the LATEST ruling on bail?" = true
  /\ should_search_web "What is Article 21?" = false.
Proof.
  split.
  - apply (proj1 (proj2 (should_search_web_routing "What is the LATEST ruling on bail?"))).
    exists "what is the ", " ruling on bail?". reflexivity.
  - apply (proj2 (proj2 (should_search_web_routing "What is Article 21?"))).
    intros keyword Hin. apply contains_false_not_occurs.
    unfold web_search_keywords in Hin. simpl in Hin.
    repeat (destruct Hin as [<-|Hin]; [vm_compute; reflexivity|]).
    destruct Hin.
Defined.

Lemma should_search_web_embedded_keyword_witness :
  should_search_web "Do I know my rights as a tenant?" = true
  /\ should_search_web "Can a newspaper be sued for defamation?" = true
  /\ should_search_web "Is a lease renewal binding?" = true.
Proof.
  split; [|split].
  - apply (should_search_web_embedded_keyword
             "Do I know my rights as a tenant?" "now" "do i k" " my rights as a tenant?").
    + unfold web_search_keywords. simpl. tauto.
    + reflexivity.
  - apply (should_search_web_embedded_keyword
             "Can a newspaper be sued for defamation?" "new" "can a " "spaper be sued for defamation?").
    + unfold web_search_keywords. simpl. tauto.
    + reflexivity.
  - apply (should_search_web_embedded_keyword
             "Is a lease renewal binding?" "new" "is a lease re" "al binding?").
    + unfold web_search_keywords. simpl. tauto.
    + reflexivity.
Defined.

(** ** Staleness: [_documents_changed] *)

Section Staleness.

(** A machine whose cache marker is stamped [T]. *)
Variable w : World.
Variable T : Z.
Hypothesis marker : index_cache_file w = Some T.

Lemma newer_than_true (listing : list (string * DirEntry)) :
  newer_than T listing = true <->
  exists name f, In (name, f) listing /\ is_file f = true /\ (T < mtime f)%Z.
Proof.
  induction listing as [|[name f] rest IH]; simpl.
  - split; [discriminate|]. intros (? & ? & [] & _).
  - destruct (is_file f && (T <? mtime f)%Z) eqn:E.
    + split; [|reflexivity]. intros _.
      apply andb_true_iff in E as [Hf Hm]. apply Z.ltb_lt in Hm.
      exists name, f. auto.
    + rewrite IH. split.
      * intros (n & g & Hin & Hg). exists n, g. auto.
      * intros (n & g & [Heq|Hin] & Hf & Hm).
        -- inversion Heq; subst n g. rewrite Hf in E. simpl in E.
           apply Z.ltb_ge in E. lia.
        -- exists n, g. auto.
Qed.

Lemma newer_than_false (listing : list (string * DirEntry)) :
  newer_than T listing = false <->
  forall name f, In (name, f) listing -> is_file f = true -> (mtime f <= T)%Z.
Proof.
  split.
  - intros H name f Hin Hf.
    destruct (Z_lt_le_dec T (mtime f)) as [Hlt|Hle]; [|exact Hle].
    assert (newer_than T listing = true) as Ht
      by (apply newer_than_true; exists name, f; auto).
    congruence.
  - intros H. apply not_true_is_false. intros Ht.
    apply newer_than_true in Ht as (name & f & Hin & Hf & Hm).
    specialize (H name f Hin Hf). lia.
Qed.

(** C4.  With a cache marker stamped [T] and the documents folder in place,
    one regular file modified after [T] makes the check answer true, and
    the check answers false when no regular file was modified after [T]. *)
Theorem staleness_monotone (listing : list (string * DirEntry)) :
  documents_dir w = Some listing ->
  ((exists name f, In (name, f) listing /\ is_file f = true /\ (T < mtime f)%Z) ->
   _documents_changed w = true)
  /\ ((forall name f, In (name, f) listing -> is_file f = true -> (mtime f <= T)%Z) ->
      _documents_changed w = false).
Proof.
  intros Hdir. unfold _documents_changed. rewrite marker, Hdir. split.
  - apply newer_than_true.
  - apply newer_than_false.
Qed.

(** C2, as the code has it.  The check looks at modification times only.
    A file that is added or changed and carries a time after the marker's
    makes the check answer true.  A removal is never what makes it answer
    true: if the check answered false with the file in place, it answers
    false with the file gone. *)
Theorem staleness_by_mtime_only (l1 l2 : list (string * DirEntry))
    (name : string) (f : DirEntry) :
  (documents_dir w = Some (l1 ++ (name, f) :: l2)%list ->
   is_file f = true -> (T < mtime f)%Z ->
   _documents_changed w = true)
  /\ (documents_dir w = Some (l1 ++ l2)%list ->
      _documents_changed (with_documents_dir (Some (l1 ++ (name, f) :: l2)%list) w) = false ->
      _documents_changed w = false).
Proof.
  split.
  - intros Hdir Hf Hm. unfold _documents_changed. rewrite marker, Hdir.
    apply newer_than_true. exists name, f.
    split; [apply in_or_app; right; left; reflexivity|auto].
  - intros Hdir. unfold _documents_changed. simpl. rewrite marker, Hdir.
    rewrite !newer_than_false. intros H n g Hin.
    apply (H n g). apply in_app_or in Hin as [Hin|Hin]; apply in_or_app;
      [left|right; right]; exact Hin.
Qed.

End Staleness.

Lemma staleness_monotone_witness :
  _documents_changed (Scenario.cached_world Scenario.after_edit) = true
  /\ _documents_changed (Scenario.cached_world Scenario.at_build) = false.
Proof.
  split.
  - apply (proj1 (staleness_monotone (Scenario.cached_world Scenario.after_edit) 100
                    eq_refl Scenario.after_edit eq_refl)).
    exists "ipc.txt", (Scenario.txt 150 "Section 302, as amended").
    split; [right; left; reflexivity|]. split; [reflexivity|]. simpl. lia.
  - apply (proj2 (staleness_monotone (Scenario.cached_world Scenario.at_build) 100
                    eq_refl Scenario.at_build eq_refl)).
    intros name f Hin _.
    destruct Hin as [Heq|[Heq|[]]]; inversion Heq; simpl; lia.
Defined.

Lemma staleness_by_mtime_only_witness :
  _documents_changed (Scenario.cached_world Scenario.after_edit) = true
  /\ _documents_changed (Scenario.cached_world Scenario.after_removal) = false.
Proof.
  split.
  - apply (proj1 (staleness_by_mtime_only
                    (Scenario.cached_world Scenario.after_edit) 100 eq_refl
                    [Scenario.constitution] [] "ipc.txt"
                    (Scenario.txt 150 "Section 302, as amended"))).
    + reflexivity.
    + reflexivity.
    + simpl. lia.
  - apply (proj2 (staleness_by_mtime_only
                    (Scenario.cached_world Scenario.after_removal) 100 eq_refl
                    [Scenario.constitution] [] "ipc.txt"
                    (snd Scenario.penal_code))).
    + reflexivity.
    + reflexivity.
Defined.

(** C2, as the claim has it, fails: [ipc.txt] is removed from a folder
    whose files are all older than the marker, and the check still answers
    false; so it does when a file comes in with an older time. *)
Lemma removed_file_goes_unnoticed :
  index_cache_file (Scenario.cached_world Scenario.after_removal) = Some 100%Z
  /\ single_change Scenario.at_build Scenario.after_removal
  /\ Forall (fun entry => (mtime (snd entry) <= 100)%Z) Scenario.after_removal
  /\ _documents_changed (Scenario.cached_world Scenario.after_removal) = false
  /\ single_change Scenario.at_build Scenario.after_restore
  /\ _documents_changed (Scenario.cached_world Scenario.after_restore) = false.
Proof.
  split; [reflexivity|]. split; [|split; [|split; [|split]]].
  - exact (file_removed [Scenario.constitution] [] "ipc.txt"
             (Scenario.txt 20 "Section 302 punishment for murder")).
  - repeat constructor. simpl. lia.
  - reflexivity.
  - exact (file_added [Scenario.constitution; Scenario.penal_code] [] "crpc.txt"
             (Scenario.txt 30 "Section 438 anticipatory bail")).
  - reflexivity.
Qed.

(** ** Loading the corpus *)

Section Corpus.

Variable P : Providers.

Lemma process_all_documents_missing (st : State) :
  documents_dir (world st) = None ->
  document_processor.process_all_documents st
  = (Returns [], log (MsgFolderNotFound "documents") st).
Proof.
  intros H. unfold document_processor.process_all_documents. run.
  rewrite H. reflexivity.
Qed.

Lemma process_all_documents_empty (st : State) :
  documents_dir (world st) = Some [] ->
  document_processor.process_all_documents st
  = (Returns [], log (MsgTotalProcessed 0) st).
Proof.
  intros H. unfold document_processor.process_all_documents. run.
  rewrite H. reflexivity.
Qed.

Lemma build_index_forced (st : State) :
  build_index P true st = build_from_documents P st.
Proof. reflexivity. Qed.

Lemma build_index_stale (st : State) :
  _documents_changed (world st) = true ->
  build_index P false st = build_from_documents P st.
Proof.
  intros H. unfold build_index. run. rewrite H. reflexivity.
Qed.

Lemma build_from_no_documents (st : State) (m : Msg) :
  document_processor.process_all_documents (log MsgProcessingDocuments st)
  = (Returns [], log m (log MsgProcessingDocuments st)) ->
  fst (build_from_documents P st) = Raises no_documents_error.
Proof.
  intros H. unfold build_from_documents. step.
  change (print MsgProcessingDocuments st) with (Returns tt, log MsgProcessingDocuments st).
  cbv iota beta. step. rewrite H. reflexivity.
Qed.

(** C3, as the code has it.  Over a missing documents folder the loader
    raises nothing: it reports the folder as not found and returns the
    empty list.  The constructor of the processor creates the folder when
    it is missing.  [build_index] then fails with the very error it raises
    for an empty folder. *)
Theorem missing_folder_is_an_empty_corpus (st : State) :
  documents_dir (world st) = None ->
  document_processor.process_all_documents st
  = (Returns [], log (MsgFolderNotFound "documents") st)
  /\ documents_dir (world (snd (document_processor.__init__ st))) = Some []
  /\ (forall force_rebuild,
        fst (build_index P force_rebuild st) = Raises no_documents_error)
  /\ (forall st', documents_dir (world st') = Some [] ->
        fst (build_index P true st') = Raises no_documents_error).
Proof.
  intros H. split; [|split; [|split]].
  - apply process_all_documents_missing, H.
  - unfold document_processor.__init__. run. rewrite H. reflexivity.
  - intros force_rebuild.
    assert (build_index P force_rebuild st = build_from_documents P st) as ->.
    { destruct force_rebuild; [reflexivity|].
      apply build_index_stale. unfold _documents_changed. rewrite H.
      destruct (index_cache_file (world st)); reflexivity. }
    apply (build_from_no_documents st (MsgFolderNotFound "documents")).
    apply process_all_documents_missing, H.
  - intros st' H'. rewrite build_index_forced.
    apply (build_from_no_documents st' (MsgTotalProcessed 0)).
    apply process_all_documents_empty, H'.
Qed.

End Corpus.

Lemma missing_folder_is_an_empty_corpus_witness :
  fst (document_processor.process_all_documents Scenario.missing_folder) = Returns []
  /\ fst (build_index Scenario.providers false Scenario.missing_folder)
     = Raises no_documents_error.
Proof.
  destruct (missing_folder_is_an_empty_corpus Scenario.providers
              Scenario.missing_folder eq_refl) as (Hload & _ & Hbuild & _).
  split.
  - rewrite Hload. reflexivity.
  - apply Hbuild.
Defined.

(** C3, as the claim has it, fails: over the missing folder the loader
    returns the empty list and raises no exception at all. *)
Lemma missing_folder_raises_nothing :
  documents_dir (world Scenario.missing_folder) = None
  /\ fst (document_processor.process_all_documents Scenario.missing_folder) = Returns []
  /\ ~ (exists e, fst (document_processor.process_all_documents Scenario.missing_folder)
                  = Raises e).
Proof.
  split; [reflexivity|]. split; [reflexivity|].
  intros [e He]. vm_compute in He. discriminate He.
Qed.

(** ** The index lifecycle: cache, fallback, rebuild *)

Section Lifecycle.

Variable P : Providers.

Lemma load_cached_index_unreadable (st : State) (e : Exception) :
  storage_dir (world st) = Some (Raises e) ->
  load_cached_index st = (Returns false, log (MsgCouldNotLoad e) st).
Proof.
  intros H. unfold load_cached_index. run. rewrite H. reflexivity.
Qed.

Lemma load_cached_index_readable (st : State) (idx : Index) :
  storage_dir (world st) = Some (Returns idx) ->
  load_cached_index st
  = (Returns true,
     mkState (world st) (mkLegalChatbot (Some idx) (query_engine (self st))) (stdout st)).
Proof.
  intros H. unfold load_cached_index. run. rewrite H. reflexivity.
Qed.

(** An unchanged corpus and a readable storage folder: nothing is rebuilt. *)
Lemma build_index_from_cache (st : State) (idx : Index) :
  _documents_changed (world st) = false ->
  storage_dir (world st) = Some (Returns idx) ->
  build_index P false st
  = (Returns (Some idx),
     log MsgLoadedCachedIndex
       (mkState (world st) (mkLegalChatbot (Some idx) (query_engine (self st)))
                (stdout st))).
Proof.
  intros Hfresh Hstore. unfold build_index. step.
  replace ((if negb false
            then w ← get_world;
                 if negb (_documents_changed w) then load_cached_index else mret false
            else mret false) st)
    with (load_cached_index st).
  - rewrite (load_cached_index_readable st idx Hstore). reflexivity.
  - run. rewrite Hfresh. reflexivity.
Qed.

(** C1, as the code has it.  With the corpus unchanged since the marker
    was written and a storage folder that fails to load, [build_index]
    reports the failure and goes on, in the same call, exactly as a forced
    rebuild does; so does [initialize]. *)
Theorem unreadable_cache_falls_back_to_rebuild (st : State) (e : Exception) :
  _documents_changed (world st) = false ->
  storage_dir (world st) = Some (Raises e) ->
  build_index P false st = build_index P true (log (MsgCouldNotLoad e) st)
  /\ initialize P false st
     = (print MsgInitializing;; print (MsgCouldNotLoad e);;
        build_index P true;; setup_query_engine 3;; print MsgInitialized) st.
Proof.
  intros Hfresh Hstore.
  assert (forall st0, world st0 = world st ->
            build_index P false st0 = build_index P true (log (MsgCouldNotLoad e) st0))
    as Hbuild.
  { intros st0 Hw. rewrite build_index_forced. unfold build_index. step.
    replace ((if negb false
              then w ← get_world;
                   if negb (_documents_changed w) then load_cached_index else mret false
              else mret false) st0)
      with (load_cached_index st0).
    - rewrite (load_cached_index_unreadable st0 e) by (rewrite Hw; exact Hstore).
      reflexivity.
    - run. rewrite Hw, Hfresh. reflexivity. }
  split.
  - apply Hbuild. reflexivity.
  - unfold initialize.
    unfold mbind at 1 5. unfold M_bind at 1 2.
    change (print MsgInitializing st) with (Returns tt, log MsgInitializing st).
    cbv iota beta.
    unfold mbind at 1 4. unfold M_bind at 1 2.
    rewrite (Hbuild (log MsgInitializing st)) by reflexivity.
    reflexivity.
Qed.

End Lifecycle.

Lemma unreadable_cache_falls_back_to_rebuild_witness :
  build_index Scenario.providers false Scenario.corrupt_cache
  = build_index Scenario.providers true
      (log (MsgCouldNotLoad Scenario.corrupt) Scenario.corrupt_cache).
Proof.
  apply (proj1 (unreadable_cache_falls_back_to_rebuild Scenario.providers
                  Scenario.corrupt_cache Scenario.corrupt eq_refl eq_refl)).
Defined.

(** C1, as the claim has it, fails: the marker is fresh, the storage folder
    does not load, and the one call of [build_index] without
    [force_rebuild] reads the corpus again, builds a new index and writes
    it over the stores it could not read. *)
Lemma unreadable_cache_is_rebuilt_unasked :
  _documents_changed (world Scenario.corrupt_cache) = false
  /\ storage_dir (world Scenario.corrupt_cache) = Some (Raises Scenario.corrupt)
  /\ fst (build_index Scenario.providers false Scenario.corrupt_cache)
     = Returns (Some Scenario.rebuilt_index)
  /\ stdout (snd (build_index Scenario.providers false Scenario.corrupt_cache))
     = [MsgCouldNotLoad Scenario.corrupt; MsgProcessingDocuments;
        MsgProcessed "constitution.txt"; MsgProcessed "ipc.txt";
        MsgTotalProcessed 2; MsgBuildingIndex 2; MsgIndexCached;
        MsgIndexBuiltAndCached]
  /\ storage_dir (world (snd (build_index Scenario.providers false Scenario.corrupt_cache)))
     = Some (Returns Scenario.rebuilt_index).
Proof.
  repeat split; vm_compute; reflexivity.
Qed.

(** ** The web-context block: [get_web_context] *)

Section WebContext.

Variable P : Providers.

(** What the slice and the conditional marker of the loop body show of a
    result's content. *)
Lemma slice_is_clipped (c : string) :
  clipped 400 c
    (PyStr.take 400 c ++ (if (400 <? String.length c)%nat then "..." else "")).
Proof.
  split; intros H.
  - exists (PyStr.take 400 c), (PyStr.drop 400 c).
    split; [symmetry; apply take_drop|].
    split; [apply take_length; lia|].
    apply Nat.ltb_lt in H. rewrite H. reflexivity.
  - apply Nat.ltb_ge in H. rewrite H.
    rewrite append_empty_r. apply take_all.
    apply Nat.ltb_ge in H. exact H.
Qed.

Lemma add_result_block (web_context : string) (i : nat) (r : Snippet) :
  add_result web_context (i, r)
  = web_context
      ++ result_block i r
           (PyStr.take 400 (content r)
              ++ (if (400 <? String.length (content r))%nat then "..." else "")).
Proof.
  unfold add_result, result_block. rewrite !append_assoc. reflexivity.
Qed.

(** The search depends on the query only and leaves the state alone. *)
Lemma comprehensive_legal_search_pure (query : string) (st : State) :
  web_scraper.comprehensive_legal_search P query st
  = (fst (web_scraper.comprehensive_legal_search P query
            (mkState (world st) (self st) [])), st).
Proof.
  unfold web_scraper.comprehensive_legal_search. run.
  destruct (search_recent_cases P _); reflexivity.
Qed.

Lemma get_web_context_found (question : string) (st : State) (sr : SearchResults) :
  fst (web_scraper.comprehensive_legal_search P question st) = Returns sr ->
  get_web_context P question st
  = (Returns (match results sr with
              | [] => "No recent web information found for this query."
              | _ :: _ => fold_left add_result
                            (enumerate (firstn 2 (results sr)) 1) web_context_header
              end), st).
Proof.
  intros H. unfold get_web_context, try_except. step.
  rewrite comprehensive_legal_search_pure in H |- *. simpl in H. rewrite H.
  destruct (results sr); reflexivity.
Qed.

Lemma get_web_context_failed (question : string) (st : State) (e : Exception) :
  fst (web_scraper.comprehensive_legal_search P question st) = Raises e ->
  get_web_context P question st
  = (Returns ("Error retrieving web information: " ++ str e), st).
Proof.
  intros H. unfold get_web_context, try_except. step.
  rewrite comprehensive_legal_search_pure in H |- *. simpl in H. rewrite H.
  reflexivity.
Qed.

(** [get_web_context] raises nothing and leaves the state alone. *)
Lemma get_web_context_returns (question : string) (st : State) :
  exists web_context, get_web_context P question st = (Returns web_context, st).
Proof.
  destruct (fst (web_scraper.comprehensive_legal_search P question st)) as [sr|e] eqn:E.
  - eexists. apply get_web_context_found, E.
  - eexists. apply get_web_context_failed, E.
Qed.

(** C5.  After a successful search the block holds one entry for each of
    the first two results and no other: without results it is the
    "nothing found" line, otherwise the header followed by the entries.
    The entry of a result shows its content whole when it has at most 400
    characters, and otherwise its first 400 characters followed by "...". *)
Theorem web_context_cap_and_truncation (question : string) (st : State)
    (sr : SearchResults) :
  fst (web_scraper.comprehensive_legal_search P question st) = Returns sr ->
  exists blocks : list string,
    fst (get_web_context P question st)
    = Returns (match blocks with
               | [] => "No recent web information found for this query."
               | _ :: _ => web_context_header ++ String.concat "" blocks
               end)
    /\ length blocks = Nat.min 2 (length (results sr))
    /\ forall (i : nat) (block : string), blocks !! i = Some block ->
         exists r shown, results sr !! i = Some r
                         /\ block = result_block (S i) r shown
                         /\ clipped 400 (content r) shown.
Proof.
  intros Hsearch.
  rewrite (get_web_context_found question st sr Hsearch).
  destruct (results sr) as [|r1 [|r2 rest]].
  - exists []. split; [reflexivity|]. split; [reflexivity|].
    intros i block Hb. destruct i; discriminate Hb.
  - exists [result_block 1 r1
              (PyStr.take 400 (content r1)
                 ++ (if (400 <? String.length (content r1))%nat then "..." else ""))].
    split; [|split].
    + cbn [fold_left enumerate firstn String.concat fst].
      rewrite add_result_block. reflexivity.
    + reflexivity.
    + intros [|i] block Hb; simpl in Hb; [|discriminate].
      inversion Hb; subst block. eexists r1, _.
      split; [reflexivity|]. split; [reflexivity|]. apply slice_is_clipped.
  - exists [result_block 1 r1
              (PyStr.take 400 (content r1)
                 ++ (if (400 <? String.length (content r1))%nat then "..." else ""));
            result_block 2 r2
              (PyStr.take 400 (content r2)
                 ++ (if (400 <? String.length (content r2))%nat then "..." else ""))].
    split; [|split].
    + cbn [fold_left enumerate firstn String.concat fst].
      rewrite !add_result_block, append_assoc. reflexivity.
    + reflexivity.
    + intros [|[|i]] block Hb; simpl in Hb; [| |discriminate].
      * inversion Hb; subst block. eexists r1, _.
        split; [reflexivity|]. split; [reflexivity|]. apply slice_is_clipped.
      * inversion Hb; subst block. eexists r2, _.
        split; [reflexivity|]. split; [reflexivity|]. apply slice_is_clipped.
Qed.

End WebContext.

Lemma web_context_cap_and_truncation_witness :
  exists blocks : list string,
    fst (get_web_context Scenario.providers_online "latest bail ruling" Scenario.ready)
    = Returns (match blocks with
               | [] => "No recent web information found for this query."
               | _ :: _ => web_context_header ++ String.concat "" blocks
               end)
    /\ length blocks = 2
    /\ forall (i : nat) (block : string), blocks !! i = Some block ->
         exists r shown,
           [Scenario.long_result; Scenario.short_result; Scenario.third_result] !! i = Some r
           /\ block = result_block (S i) r shown
           /\ clipped 400 (content r) shown.
Proof.
  apply (web_context_cap_and_truncation Scenario.providers_online "latest bail ruling"
           Scenario.ready
           (mkSearchResults "recent"
              [Scenario.long_result; Scenario.short_result; Scenario.third_result] 3)).
  reflexivity.
Defined.

(** The scenario of the specification: a content of 500 characters is shown
    as 400 characters and the marker, one of 300 characters whole, and a
    third result is left out. *)
Example web_context_500_300 :
  fst (get_web_context Scenario.providers_online "latest bail ruling" Scenario.ready)
  = Returns (web_context_header
               ++ result_block 1 Scenario.long_result (Scenario.filler 400 ++ "...")
               ++ result_block 2 Scenario.short_result (Scenario.filler 300)).
Proof. vm_compute. reflexivity. Qed.

(** ** Answering: [query] *)

Section Query.

Variable P : Providers.
Variable question : string.

Lemma query_web_context_returns (st : State) :
  exists web_context st1,
    query_web_context P question st = (Returns web_context, st1)
    /\ (forall e, should_search_web question = true ->
          fst (web_scraper.comprehensive_legal_search P question st) = Raises e ->
          web_context = "Error retrieving web information: " ++ str e).
Proof.
  unfold query_web_context.
  destruct (should_search_web question) eqn:Hweb.
  - step.
    change (print MsgSearchingWeb st) with (Returns tt, log MsgSearchingWeb st).
    cbv iota beta.
    destruct (get_web_context_returns P question (log MsgSearchingWeb st)) as [wc Hwc].
    exists wc, (log MsgSearchingWeb st). split; [exact Hwc|].
    intros e _ He.
    rewrite comprehensive_legal_search_pure in He.
    rewrite (get_web_context_failed P question (log MsgSearchingWeb st) e) in Hwc.
    + inversion Hwc. reflexivity.
    + rewrite comprehensive_legal_search_pure. exact He.
  - eexists _, st. split; [reflexivity|]. intros e Habs. discriminate Habs.
Qed.

(** What [query] does once the engine is there, stage by stage. *)
Lemma query_stages (st : State) (engine : QueryEngine)
    (web_context : string) (st1 : State) :
  query_engine (self st) = Some engine ->
  query_web_context P question st = (Returns web_context, st1) ->
  query P question st
  = match retrieve P (index (self st)) 3 question with
    | Raises e => (Returns (query_error e), st)
    | Returns nodes =>
        match template_format P (PyStr.join nl nodes) web_context question with
        | Raises e => (Returns (query_error e), st1)
        | Returns enhanced_prompt =>
            match llm_complete P enhanced_prompt with
            | Raises e => (Returns (query_error e), st1)
            | Returns response => (Returns (remove_markdown response), st1)
            end
        end
    end.
Proof.
  intros Hengine Hweb. unfold query. step. unfold get_self at 1. cbv iota beta.
  rewrite Hengine.
  unfold try_except, mbind, M_bind, call, mret, M_ret.
  destruct (retrieve P (index (self st)) 3 question) as [nodes|e]; [|reflexivity].
  rewrite Hweb.
  destruct (template_format P _ web_context question) as [prompt|e]; [|reflexivity].
  destruct (llm_complete P prompt) as [response|e]; reflexivity.
Qed.

(** With the engine set up, [query] returns. *)
Lemma query_returns_with_engine (st : State) (engine : QueryEngine) :
  query_engine (self st) = Some engine ->
  exists answer st', query P question st = (Returns answer, st').
Proof.
  intros Hengine.
  destruct (query_web_context_returns st) as (wc & st1 & Hweb & _).
  rewrite (query_stages st engine wc st1 Hengine Hweb).
  destruct (retrieve P _ 3 question) as [nodes|e]; [|eauto].
  destruct (template_format P _ wc question) as [prompt|e]; [|eauto].
  destruct (llm_complete P prompt) as [response|e]; eauto.
Qed.

(** C7, as the code has it.  With the query engine set up, [query] returns
    an answer whatever the providers do.  An exception of the retrieval, of
    the prompt assembly or of the completion becomes the answer
    "Error processing query: ...".  An exception of the web search is
    caught one level down: it becomes the web context
    "Error retrieving web information: ...", and the query goes on to the
    prompt and the completion with it. *)
Theorem query_swallows_exceptions (st : State) (engine : QueryEngine) :
  query_engine (self st) = Some engine ->
  exists (web_context : string) (st1 : State),
    query_web_context P question st = (Returns web_context, st1)
    /\ (forall e, should_search_web question = true ->
          fst (web_scraper.comprehensive_legal_search P question st) = Raises e ->
          web_context = "Error retrieving web information: " ++ str e)
    /\ (exists answer st', query P question st = (Returns answer, st'))
    /\ (forall e, retrieve P (index (self st)) 3 question = Raises e ->
          fst (query P question st) = Returns (query_error e))
    /\ (forall nodes, retrieve P (index (self st)) 3 question = Returns nodes ->
          (forall e,
             template_format P (PyStr.join nl nodes) web_context question = Raises e ->
             fst (query P question st) = Returns (query_error e))
          /\ (forall enhanced_prompt,
                template_format P (PyStr.join nl nodes) web_context question
                = Returns enhanced_prompt ->
                (forall e, llm_complete P enhanced_prompt = Raises e ->
                           fst (query P question st) = Returns (query_error e))
                /\ (forall response, llm_complete P enhanced_prompt = Returns response ->
                      fst (query P question st) = Returns (remove_markdown response)))).
Proof.
  intros Hengine.
  destruct (query_web_context_returns st) as (wc & st1 & Hweb & Hfail).
  exists wc, st1. split; [exact Hweb|]. split; [exact Hfail|].
  split; [exact (query_returns_with_engine st engine Hengine)|].
  rewrite (query_stages st engine wc st1 Hengine Hweb).
  split.
  - intros e ->. reflexivity.
  - intros nodes ->. split.
    + intros e ->. reflexivity.
    + intros prompt ->. split.
      * intros e ->. reflexivity.
      * intros response ->. reflexivity.
Qed.

(** C8.  While no query engine is set up, [query] raises its
    [ValueError] to the caller and touches nothing; and [query] raises in
    no other state and with no other exception. *)
Theorem query_before_initialize_raises (st : State) :
  query_engine (self st) = None ->
  query P question st = (Raises not_initialized_error, st)
  /\ (forall (st' : State) (e : Exception),
        fst (query P question st') = Raises e ->
        query_engine (self st') = None /\ e = not_initialized_error).
Proof.
  intros Hnone. split.
  - unfold query. step. unfold get_self at 1. cbv iota beta.
    rewrite Hnone. reflexivity.
  - intros st' e Hraise.
    destruct (query_engine (self st')) as [engine|] eqn:Hengine.
    + destruct (query_returns_with_engine st' engine Hengine) as (answer & st'' & Hq).
      rewrite Hq in Hraise. discriminate Hraise.
    + split; [reflexivity|].
      revert Hraise. unfold query. step. unfold get_self at 1. cbv iota beta.
      rewrite Hengine. simpl. intros H. inversion H. reflexivity.
Qed.

End Query.

Lemma query_swallows_exceptions_witness :
  exists answer,
    fst (query Scenario.providers "latest ruling on Article 21" Scenario.ready)
    = Returns answer.
Proof.
  destruct (query_swallows_exceptions Scenario.providers "latest ruling on Article 21"
              Scenario.ready (mkQueryEngine 3) eq_refl)
    as (wc & st1 & _ & _ & (answer & st' & Hanswer) & _).
  exists answer. rewrite Hanswer. reflexivity.
Defined.

(** C7, as the claim has it, fails for the web search: the query asks for
    the latest ruling, the search engine cannot be reached, and the answer
    is the completion of the model, not an error string. *)
Lemma web_failure_is_not_the_answer :
  query_engine (self Scenario.ready) = Some (mkQueryEngine 3)
  /\ should_search_web "latest ruling on Article 21" = true
  /\ fst (web_scraper.comprehensive_legal_search Scenario.providers
            "latest ruling on Article 21" Scenario.ready)
     = Raises Scenario.net_down
  /\ fst (query Scenario.providers "latest ruling on Article 21" Scenario.ready)
     = Returns "Article 21 protects life and personal liberty."
  /\ fst (query Scenario.providers "latest ruling on Article 21" Scenario.ready)
     <> Returns (query_error Scenario.net_down).
Proof.
  split; [reflexivity|]. split; [vm_compute; reflexivity|].
  split; [vm_compute; reflexivity|]. split; [vm_compute; reflexivity|].
  vm_compute. discriminate.
Qed.

Lemma query_before_initialize_raises_witness :
  query Scenario.providers "What is Article 21?" (snd (__init__ Scenario.boot))
  = (Raises not_initialized_error, snd (__init__ Scenario.boot)).
Proof.
  apply (proj1 (query_before_initialize_raises Scenario.providers "What is Article 21?"
                  (snd (__init__ Scenario.boot)) eq_refl)).
Defined.

(** After [initialize] over a readable cache the same question is answered. *)
Example query_after_initialize :
  fst ((__init__;; initialize Scenario.providers false;;
        query Scenario.providers "What is Article 21?") Scenario.boot)
  = Returns "Article 21 protects life and personal liberty.".
Proof. vm_compute. reflexivity. Qed.

(** ** Reporting: [get_document_info] *)

Section DocumentInfo.

Variable store : list (string * Document).

Lemma get_document_listed (doc_id : string) :
  In doc_id (map fst store) ->
  exists d, get_document store doc_id = Returns d /\ In (doc_id, d) store.
Proof.
  induction store as [|[k d] rest IH]; simpl; [intros []|].
  intros Hin. destruct (String.eqb_spec k doc_id) as [->|Hne].
  - exists d. auto.
  - destruct Hin as [Heq|Hin]; [contradiction|].
    destruct (IH Hin) as (d' & Hget & Hd'). exists d'. auto.
Qed.

Lemma collect_info_listed (ids : list string) (doc_info : list DocInfo) (st : State) :
  (forall doc_id, In doc_id ids -> In doc_id (map fst store)) ->
  exists found : list DocInfo,
    collect_info store ids doc_info st = (Returns (doc_info ++ found)%list, st)
    /\ length found = length ids
    /\ Forall (fun r => exists doc_id d, In (doc_id, d) store /\ r = doc_info_of d) found.
Proof.
  revert doc_info. induction ids as [|doc_id rest IH]; intros doc_info Hids.
  - exists []. rewrite app_nil_r. repeat split. constructor.
  - destruct (get_document_listed doc_id (Hids doc_id (or_introl eq_refl)))
      as (d & Hget & Hd).
    destruct (IH (doc_info ++ [doc_info_of d])%list
                 (fun i Hi => Hids i (or_intror Hi))) as (found & Hrun & Hlen & Hall).
    exists (doc_info_of d :: found).
    split; [|split].
    + simpl. unfold mbind, M_bind, call. rewrite Hget.
      fold (doc_info_of d). rewrite Hrun, <- app_assoc. reflexivity.
    + simpl. rewrite Hlen. reflexivity.
    + constructor; [exists doc_id, d; auto|exact Hall].
Qed.

End DocumentInfo.

(** C10.  Without an index the answer is the string "Index not built yet.";
    with an index it is a list with one record per entry of the document
    store: the result is a string in one state and a list in the other. *)
Theorem get_document_info_by_state (st : State) :
  (index (self st) = None ->
   get_document_info st = (Returns (InfoString "Index not built yet."), st))
  /\ (forall idx, index (self st) = Some idx ->
        exists l : list DocInfo,
          get_document_info st = (Returns (InfoList l), st)
          /\ length l = length (docs idx)
          /\ Forall (fun r => exists doc_id d, In (doc_id, d) (docs idx)
                                               /\ r = doc_info_of d) l).
Proof.
  split.
  - intros Hnone. unfold get_document_info. step. unfold get_self.
    cbv iota beta. rewrite Hnone. reflexivity.
  - intros idx Hsome.
    destruct (collect_info_listed (docs idx) (map fst (docs idx)) [] st (fun _ H => H))
      as (found & Hrun & Hlen & Hall).
    exists found. split; [|split].
    + unfold get_document_info. step. unfold get_self. cbv iota beta.
      rewrite Hsome. step. rewrite Hrun. reflexivity.
    + rewrite Hlen. apply length_map.
    + exact Hall.
Qed.

Lemma get_document_info_by_state_witness :
  fst (get_document_info (snd (__init__ Scenario.boot)))
  = Returns (InfoString "Index not built yet.")
  /\ exists l, fst (get_document_info Scenario.ready) = Returns (InfoList l)
               /\ length l = 1.
Proof.
  split.
  - rewrite (proj1 (get_document_info_by_state (snd (__init__ Scenario.boot))) eq_refl).
    reflexivity.
  - destruct (proj2 (get_document_info_by_state Scenario.ready)
                Scenario.stored_index eq_refl) as (l & Hrun & Hlen & _).
    exists l. rewrite Hrun. split; [reflexivity|exact Hlen].
Defined.

(** * Further properties *)

(** ** Cleaning the answer: [remove_markdown] *)

Section Markup.

Lemma without_without (p q : ascii -> bool) (s : string) :
  without p (without q s) = without (fun c => q c || p c) s.
Proof.
  induction s as [|c s IH]; [reflexivity|]. simpl.
  destruct (q c); simpl; [exact IH|].
  destruct (p c); [exact IH|]. rewrite IH. reflexivity.
Qed.

Lemma remove_one_char (c : ascii) (s : string) :
  PyStr.remove (String c "") s = without (Ascii.eqb c) s.
Proof.
  unfold PyStr.remove. induction s as [|a s IH]; [reflexivity|].
  simpl. destruct (Ascii.eqb c a); simpl; rewrite IH; reflexivity.
Qed.

(** Removing a run of [c] takes nothing but [c] away. *)
Lemma remove_run_from (c : ascii) (n : nat) (s : string) (skip : nat) :
  PyStr.startswith (repeated c skip) s = true ->
  without (Ascii.eqb c) (PyStr.remove_from (repeated c (S n)) skip s)
  = without (Ascii.eqb c) s.
Proof.
  revert skip. induction s as [|a s IH]; intros skip Hskip; [reflexivity|].
  destruct skip as [|k].
  - cbn [PyStr.remove_from].
    destruct (PyStr.startswith (repeated c (S n)) (String a s)) eqn:Hstart.
    + simpl in Hstart. apply andb_true_iff in Hstart as [Hc Hrest].
      rewrite (IH (String.length (repeated c (S n)) - 1)).
      * cbn [without]. rewrite Hc. reflexivity.
      * assert (String.length (repeated c (S n)) - 1 = n) as ->; [|exact Hrest].
        simpl. rewrite Nat.sub_0_r. clear. induction n; simpl; congruence.
    + cbn [without]. rewrite (IH 0 eq_refl). reflexivity.
  - simpl in Hskip. apply andb_true_iff in Hskip as [Hc Hrest].
    cbn [PyStr.remove_from]. rewrite (IH k Hrest). cbn [without].
    rewrite Hc. reflexivity.
Qed.

Lemma remove_run (c : ascii) (n : nat) (s : string) :
  without (Ascii.eqb c) (PyStr.remove (repeated c (S n)) s) = without (Ascii.eqb c) s.
Proof. apply (remove_run_from c n s 0). reflexivity. Qed.

(** X1.  The five replacements of [query] delete every "*" and every "#"
    of the completion and nothing else: the other characters stay, in
    their order. *)
Theorem remove_markdown_deletes_markup (response : string) :
  remove_markdown response = without is_markup response.
Proof.
  unfold remove_markdown.
  rewrite (remove_one_char "#"), (remove_run "#" 1), (remove_run "#" 2).
  rewrite (remove_one_char "*"), (remove_run "*" 1).
  rewrite without_without. reflexivity.
Qed.

End Markup.

(** ** Paths *)

Section Paths.

(** Where [rfind] finds [c], [c] stands, and not after. *)
Lemma rfind_from_found (c : ascii) (s : string) (i j : Z) :
  PyStr.rfind_from c i s = j -> (0 <= i)%Z -> (0 <= j)%Z ->
  exists pre post, s = pre ++ String c post
                   /\ j = (i + Z.of_nat (String.length pre))%Z
                   /\ PyStr.contains (String c "") post = false.
Proof.
  revert i j. induction s as [|a s IH]; intros i j H Hi Hj; simpl in H; [lia|].
  destruct (0 <=? PyStr.rfind_from c (i + 1) s)%Z eqn:Hlater.
  - apply Z.leb_le in Hlater.
    destruct (IH (i + 1)%Z j H ltac:(lia) Hj) as (pre & post & -> & -> & Hpost).
    exists (String a pre), post. repeat split; [|exact Hpost]. simpl. lia.
  - destruct (Ascii.eqb a c) eqn:Hac; [|lia].
    apply Ascii.eqb_eq in Hac. subst a j.
    exists "", s. repeat split; [simpl; lia|].
    apply Z.leb_gt in Hlater. clear IH Hj. revert i Hi Hlater.
    induction s as [|b s IHs]; intros i Hi Hlater; [reflexivity|].
    simpl in Hlater |- *.
    destruct (0 <=? PyStr.rfind_from c (i + 1 + 1) s)%Z eqn:H2; [apply Z.leb_le in H2; lia|].
    apply Z.leb_gt in H2.
    destruct (Ascii.eqb b c) eqn:Hbc; [lia|].
    rewrite Ascii.eqb_sym, Hbc. simpl.
    apply (IHs (i + 1)%Z); lia.
Qed.

Lemma rfind_from_lower (c : ascii) (s : string) (i : Z) :
  (0 <= i)%Z -> (-1 <= PyStr.rfind_from c i s)%Z.
Proof.
  revert i. induction s as [|a s IH]; intros i Hi; simpl; [lia|].
  specialize (IH (i + 1)%Z ltac:(lia)).
  destruct (0 <=? _)%Z; [lia|]. destruct (Ascii.eqb a c); lia.
Qed.

Lemma rfind_from_absent (c : ascii) (s : string) (i : Z) :
  PyStr.contains (String c "") s = false -> PyStr.rfind_from c i s = (-1)%Z.
Proof.
  revert i. induction s as [|a s IH]; intros i H; [reflexivity|].
  simpl in H. apply orb_false_iff in H as [Ha Hs].
  simpl. rewrite (IH (i + 1)%Z Hs). simpl.
  destruct (Ascii.eqb a c) eqn:Hac; [|reflexivity].
  rewrite Ascii.eqb_sym, Hac in Ha. discriminate Ha.
Qed.

Lemma drop_app_length (pre rest : string) :
  PyStr.drop (String.length pre) (pre ++ rest) = rest.
Proof.
  induction pre as [|a pre IH]; [reflexivity|].
  change (String a pre ++ rest) with (String a (pre ++ rest)). simpl. exact IH.
Qed.

(** [splitext] cuts a path in two parts that give the path back, and the
    second part is empty or is a dot followed by characters that hold no
    dot. *)
Lemma splitext_recomposes (p : string) :
  fst (os_path.splitext p) ++ snd (os_path.splitext p) = p
  /\ (snd (os_path.splitext p) = ""
      \/ exists rest, snd (os_path.splitext p) = String "." rest
                      /\ PyStr.contains "." rest = false).
Proof.
  unfold os_path.splitext.
  destruct (_ && _) eqn:Hcut; simpl.
  - split; [apply take_drop|]. right.
    apply andb_true_iff in Hcut as [Hlt _]. apply Z.ltb_lt in Hlt.
    pose proof (rfind_from_lower "/" p 0 ltac:(lia)) as Hsep.
    fold (PyStr.rfind "/" p) in Hsep.
    destruct (rfind_from_found "." p 0 (PyStr.rfind "." p) eq_refl ltac:(lia) ltac:(lia))
      as (pre & post & Hp & Hj & Hpost).
    exists post. split; [|exact Hpost].
    rewrite Hj, Z.add_0_l, Nat2Z.id. rewrite Hp. apply drop_app_length.
  - split; [apply append_empty_r|]. left. reflexivity.
Qed.

(** For a name that holds no slash, as the names of a folder do, the path
    the processor builds is the folder, a slash and the name, and its base
    name is the name again. *)
Lemma basename_of_joined (name : string) :
  PyStr.contains "/" name = false ->
  os_path.join document_processor.documents_folder name = "documents/" ++ name
  /\ os_path.basename (os_path.join document_processor.documents_folder name) = name.
Proof.
  intros Hname.
  assert (os_path.join document_processor.documents_folder name = "documents/" ++ name)
    as Hjoin.
  { unfold os_path.join.
    destruct (PyStr.startswith "/" name) eqn:Hstart.
    - apply contains_at_start in Hstart. congruence.
    - reflexivity. }
  split; [exact Hjoin|]. rewrite Hjoin.
  unfold os_path.basename, PyStr.rfind.
  cbv [String.append]. cbn [PyStr.rfind_from].
  rewrite (rfind_from_absent "/" name _ Hname). reflexivity.
Qed.

End Paths.


(** ** The loader: [process_document], [process_all_documents] *)

Section Loader.

Lemma process_document_spec (name : string) (f : DirEntry) (st : State) :
  is_file f = true ->
  exists st',
    document_processor.process_document
      (os_path.join document_processor.documents_folder name) f st
    = (Returns (document_for name f), st')
    /\ quiet st st'.
Proof.
  intros Hfile. unfold document_processor.process_document, document_for.
  rewrite Hfile. fold (extension_of name).
  unfold supported_extension, quiet.
  unfold document_processor.extract_text_from_pdf,
    document_processor.extract_text_from_docx,
    document_processor.extract_text_from_txt.
  destruct (String.eqb (extension_of name) ".pdf");
    [|destruct (String.eqb (extension_of name) ".docx");
      [|destruct (String.eqb (extension_of name) ".txt")]];
    run;
    try (destruct (reader_output f) as [body|e]; simpl;
         [destruct (PyStr.strip_nonempty body)|]);
    eexists; split; try reflexivity; split; reflexivity.
Qed.

Lemma process_listing_spec (listing : list (string * DirEntry))
    (documents : list Document) (st : State) :
  exists st',
    document_processor.process_listing listing documents st
    = (Returns (documents ++ documents_of listing)%list, st')
    /\ quiet st st'.
Proof.
  revert documents st.
  induction listing as [|[name f] rest IH]; intros documents st.
  - exists st. rewrite app_nil_r. repeat split.
  - cbn [document_processor.process_listing].
    unfold documents_of. cbn [omap list_omap fst snd]. fold (documents_of rest).
    destruct (is_file f) eqn:Hfile.
    + destruct (process_document_spec name f st Hfile) as (st1 & Hdoc & Hw1 & Hs1).
      step. rewrite Hdoc. cbv iota beta.
      destruct (document_for name f) as [d|].
      * step.
        change (print (MsgProcessed name) st1) with (Returns tt, log (MsgProcessed name) st1).
        cbv iota beta.
        destruct (IH (documents ++ [d])%list (log (MsgProcessed name) st1))
          as (st2 & Hrest & Hw2 & Hs2).
        exists st2. rewrite Hrest, <- app_assoc. split; [reflexivity|].
        split; [rewrite Hw2; exact Hw1|rewrite Hs2; exact Hs1].
      * destruct (IH documents st1) as (st2 & Hrest & Hw2 & Hs2).
        exists st2. rewrite Hrest. split; [reflexivity|].
        split; [rewrite Hw2; exact Hw1|rewrite Hs2; exact Hs1].
    + assert (document_for name f = None) as ->
        by (unfold document_for; rewrite Hfile; reflexivity).
      apply IH.
Qed.

Lemma process_all_documents_spec (st : State) :
  exists st',
    document_processor.process_all_documents st
    = (Returns (match documents_dir (world st) with
                | Some listing => documents_of listing
                | None => []
                end), st')
    /\ quiet st st'.
Proof.
  unfold document_processor.process_all_documents. step.
  unfold get_world at 1. cbv iota beta.
  destruct (documents_dir (world st)) as [listing|].
  - destruct (process_listing_spec listing [] st) as (st1 & Hrun & Hw & Hs).
    step. rewrite Hrun. cbv iota beta.
    eexists. split; [reflexivity|]. split; simpl; assumption.
  - eexists. split; [reflexivity|]. split; reflexivity.
Qed.

Lemma documents_of_app (l1 l2 : list (string * DirEntry)) :
  documents_of (l1 ++ l2) = (documents_of l1 ++ documents_of l2)%list.
Proof. unfold documents_of. apply omap_app. Qed.

Lemma document_for_loadable (name : string) (f : DirEntry) (d : Document) :
  document_for name f = Some d <->
  loadable name f (text d)
  /\ metadata d
     = <["filename" := os_path.basename
                         (os_path.join document_processor.documents_folder name)]>
         (<["file_path" := os_path.join document_processor.documents_folder name]>
            (<["document_type" := "legal_document"]> ∅)).
Proof.
  unfold document_for, loadable. split.
  - intros H.
    destruct (is_file f); [|discriminate].
    destruct (supported_extension (extension_of name)); [|discriminate].
    destruct (reader_output f) as [body|e]; [|discriminate]. simpl in H.
    destruct (PyStr.strip_nonempty body) eqn:Hbody; [|discriminate].
    inversion H; subst d. simpl. auto.
  - intros ((Hfile & Hext & Hread & Hbody) & Hmeta).
    rewrite Hfile, Hext, Hread. simpl. rewrite Hbody.
    destruct d as [t m]. simpl in *. subst m. reflexivity.
Qed.


(** X3.  With the names of a folder (they hold no slash), the documents the
    loader hands back are exactly those of the loadable entries: regular
    files with a .pdf, .docx or .txt extension in any case whose reader
    returns a text that is not blank; each carries that text, the name of
    its file, its path under the folder and the type "legal_document". *)
Theorem loaded_documents (st : State) (listing : list (string * DirEntry))
    (documents : list Document) :
  documents_dir (world st) = Some listing ->
  (forall name f, In (name, f) listing -> PyStr.contains "/" name = false) ->
  fst (document_processor.process_all_documents st) = Returns documents ->
  forall d, In d documents <->
            exists name f, In (name, f) listing
                           /\ loadable name f (text d)
                           /\ metadata d = metadata_of name.
Proof.
  intros Hdir Hnames Hrun d.
  destruct (process_all_documents_spec st) as (st' & Hspec & _).
  rewrite Hspec, Hdir in Hrun. simpl in Hrun. inversion Hrun; subst documents.
  rewrite <- list_elem_of_In. unfold documents_of. rewrite list_elem_of_omap.
  split.
  - intros ([name f] & Hin & Hdoc). simpl in Hdoc.
    apply list_elem_of_In in Hin.
    apply document_for_loadable in Hdoc as [Hload Hmeta].
    destruct (basename_of_joined name (Hnames name f Hin)) as [Hjoin Hbase].
    rewrite Hbase, Hjoin in Hmeta.
    exists name, f. auto.
  - intros (name & f & Hin & Hload & Hmeta).
    exists (name, f). split; [apply list_elem_of_In, Hin|]. simpl.
    apply document_for_loadable. split; [exact Hload|].
    destruct (basename_of_joined name (Hnames name f Hin)) as [Hjoin Hbase].
    rewrite Hbase, Hjoin. exact Hmeta.
Qed.

(** X4.  An entry that is not loadable (a folder, a file with another
    extension, a file whose reader fails, a blank file) changes nothing of
    what the loader hands back for the other entries. *)
Theorem unloadable_entry_is_skipped (st : State) (l1 l2 : list (string * DirEntry))
    (name : string) (f : DirEntry) :
  (forall body, ~ loadable name f body) ->
  fst (document_processor.process_all_documents
         (with_listing (l1 ++ (name, f) :: l2) st))
  = fst (document_processor.process_all_documents (with_listing (l1 ++ l2) st)).
Proof.
  intros Hbad.
  destruct (process_all_documents_spec (with_listing (l1 ++ (name, f) :: l2) st))
    as (st1 & -> & _).
  destruct (process_all_documents_spec (with_listing (l1 ++ l2) st)) as (st2 & -> & _).
  simpl. rewrite !documents_of_app.
  change ((name, f) :: l2) with ([(name, f)] ++ l2)%list.
  rewrite documents_of_app.
  assert (documents_of [(name, f)] = []) as ->; [|reflexivity].
  unfold documents_of. cbn [omap list_omap fst snd].
  destruct (document_for name f) as [d|] eqn:E; [|reflexivity].
  apply document_for_loadable in E as [Hload _].
  destruct (Hbad (text d) Hload).
Qed.

End Loader.

Lemma loaded_documents_witness :
  exists name f, In (name, f) Cases.mixed_folder
                 /\ loadable name f "Section 438 anticipatory bail"
                 /\ metadata_of "CrPC.TXT" = metadata_of name.
Proof.
  apply (proj1 (loaded_documents Cases.mixed Cases.mixed_folder
                  [mkDocument "Section 438 anticipatory bail" (metadata_of "CrPC.TXT")]
                  eq_refl
                  ltac:(intros name f Hin; simpl in Hin;
                        repeat (destruct Hin as [Heq|Hin]; [inversion Heq; reflexivity|]);
                        destruct Hin)
                  ltac:(vm_compute; reflexivity)
                  (mkDocument "Section 438 anticipatory bail" (metadata_of "CrPC.TXT")))).
  left. reflexivity.
Defined.

Lemma unloadable_entry_is_skipped_witness :
  fst (document_processor.process_all_documents
         (with_listing
            [Scenario.constitution;
             ("scan.pdf", mkDirEntry true 6 (Raises (OtherError "PdfReadError" "EOF")));
             Scenario.penal_code] Scenario.boot))
  = fst (document_processor.process_all_documents
           (with_listing [Scenario.constitution; Scenario.penal_code] Scenario.boot)).
Proof.
  apply (unloadable_entry_is_skipped Scenario.boot [Scenario.constitution]
           [Scenario.penal_code] "scan.pdf").
  intros body (_ & _ & Hread & _). simpl in Hread. discriminate Hread.
Defined.

(** ** Building, persisting and loading the index *)

Section Persistence.

Variable P : Providers.

Lemma quiet_refl (st : State) : quiet st st.
Proof. split; reflexivity. Qed.

Lemma quiet_trans (st1 st2 st3 : State) : quiet st1 st2 -> quiet st2 st3 -> quiet st1 st3.
Proof. intros [Hw1 Hs1] [Hw2 Hs2]. split; congruence. Qed.

Lemma quiet_log (m : Msg) (st : State) : quiet st (log m st).
Proof. split; reflexivity. Qed.

Lemma save_index_cache_written (st : State) (idx : Index) :
  index (self st) = Some idx ->
  persist_fault (world st) = None ->
  save_index_cache st
  = (Returns tt,
     log MsgIndexCached
       (mkState (with_index_cache_file (Some (clock (world st)))
                   (with_storage_dir (Some (Returns idx)) (world st)))
                (self st) (stdout st))).
Proof.
  intros Hidx Hdisk. unfold save_index_cache. run.
  destruct (storage_dir (world st)); simpl; rewrite Hidx; simpl; rewrite Hdisk;
    reflexivity.
Qed.

Lemma save_index_cache_refused (st : State) (idx : Index) (e : Exception) :
  index (self st) = Some idx ->
  persist_fault (world st) = Some e ->
  save_index_cache st
  = (Returns tt,
     log (MsgCouldNotCache e)
       (mkState (match storage_dir (world st) with
                 | None => with_storage_dir (Some (Raises empty_storage_error)) (world st)
                 | Some _ => world st
                 end)
                (self st) (stdout st))).
Proof.
  intros Hidx Hdisk. unfold save_index_cache. run.
  destruct (storage_dir (world st)); simpl; rewrite Hidx; simpl; rewrite Hdisk;
    reflexivity.
Qed.

(** The three ways [build_from_documents] ends. *)
Lemma build_from_documents_cases (st : State) :
  exists st1, quiet st st1 /\
    build_from_documents P st
    = match default [] (documents_of <$> documents_dir (world st)) with
      | [] => (Raises no_documents_error, st1)
      | d :: ds =>
          match from_documents P (d :: ds) with
          | Raises e => (Raises e, log (MsgBuildingIndex (length (d :: ds))) st1)
          | Returns idx =>
              let st2 := mkState (world st1)
                           (mkLegalChatbot (Some idx) (query_engine (self st1)))
                           (stdout st1 ++ [MsgBuildingIndex (length (d :: ds))]) in
              (Returns (index (self (snd (save_index_cache st2)))),
               log MsgIndexBuiltAndCached (snd (save_index_cache st2)))
          end
      end.
Proof.
  destruct (process_all_documents_spec (log MsgProcessingDocuments st))
    as (st1 & Hrun & Hq).
  exists st1. split; [exact (quiet_trans _ _ _ (quiet_log _ st) Hq)|].
  unfold build_from_documents. step.
  change (print MsgProcessingDocuments st) with (Returns tt, log MsgProcessingDocuments st).
  cbv iota beta. step. rewrite Hrun. cbv iota beta.
  change (world (log MsgProcessingDocuments st)) with (world st).
  destruct (documents_dir (world st)) as [listing|]; simpl; [|reflexivity].
  destruct (documents_of listing) as [|d ds]; [reflexivity|].
  run. destruct (from_documents P (d :: ds)) as [idx|e]; [|reflexivity].
  simpl. destruct (save_index_cache _) as [[[]|e] st3] eqn:Hsave; [reflexivity|].
  exfalso. revert Hsave. unfold save_index_cache. run.
  destruct (storage_dir (world st1)); simpl;
    destruct (persist_fault (world st1)); simpl; discriminate.
Qed.

Lemma build_index_unreadable (st : State) (e : Exception) :
  _documents_changed (world st) = false ->
  storage_dir (world st) = Some (Raises e) ->
  build_index P false st = build_from_documents P (log (MsgCouldNotLoad e) st).
Proof.
  intros Hfresh Hstore. unfold build_index. step.
  replace ((if negb false
            then w ← get_world;
                 if negb (_documents_changed w) then load_cached_index else mret false
            else mret false) st)
    with (load_cached_index st).
  - rewrite (load_cached_index_unreadable st e Hstore). reflexivity.
  - run. rewrite Hfresh. reflexivity.
Qed.

(** The ways [build_index] goes: the cache is loaded, or the documents are
    read, maybe after a warning. *)
Lemma build_index_cases (force_rebuild : bool) (st : State) :
  (exists idx, force_rebuild = false
               /\ _documents_changed (world st) = false
               /\ storage_dir (world st) = Some (Returns idx)
               /\ build_index P force_rebuild st
                  = (Returns (Some idx),
                     log MsgLoadedCachedIndex
                       (mkState (world st)
                          (mkLegalChatbot (Some idx) (query_engine (self st)))
                          (stdout st))))
  \/ (exists st0, quiet st st0
                  /\ build_index P force_rebuild st = build_from_documents P st0).
Proof.
  destruct force_rebuild.
  { right. exists st. split; [apply quiet_refl|reflexivity]. }
  destruct (_documents_changed (world st)) eqn:Hchanged.
  { right. exists st. split; [apply quiet_refl|]. apply build_index_stale, Hchanged. }
  destruct (storage_dir (world st)) as [[idx|e]|] eqn:Hstore.
  - left. exists idx. repeat split; try assumption.
    apply build_index_from_cache; assumption.
  - right. exists (log (MsgCouldNotLoad e) st). split; [apply quiet_log|].
    apply build_index_unreadable; assumption.
  - right. exists st. split; [apply quiet_refl|].
    unfold build_index. run. rewrite Hchanged. simpl.
    unfold load_cached_index. run. rewrite Hstore. reflexivity.
Qed.

Lemma save_index_cache_self (st : State) :
  self (snd (save_index_cache st)) = self st
  /\ documents_dir (world (snd (save_index_cache st))) = documents_dir (world st).
Proof.
  unfold save_index_cache. run.
  destruct (storage_dir (world st)); simpl;
    destruct (index (self st)); simpl;
    destruct (persist_fault (world st)); simpl; split; reflexivity.
Qed.

(** When [build_index] returns the chatbot has an index, and when it
    raises nothing but the output has changed. *)
Lemma build_index_ends (force_rebuild : bool) (st st' : State) :
  (forall r, build_index P force_rebuild st = (Returns r, st') ->
     exists idx, r = Some idx /\ index (self st') = Some idx
                 /\ query_engine (self st') = query_engine (self st))
  /\ (forall e, build_index P force_rebuild st = (Raises e, st') -> quiet st st').
Proof.
  destruct (build_index_cases force_rebuild st)
    as [(idx & _ & _ & _ & ->)|(st0 & Hq0 & ->)].
  { split; [|discriminate]. intros r H. inversion H; subst r st'.
    exists idx. repeat split. }
  destruct (build_from_documents_cases st0) as (st1 & Hq1 & ->).
  pose proof (quiet_trans _ _ _ Hq0 Hq1) as Hq.
  destruct (default [] _) as [|d ds].
  { split; [discriminate|]. intros e H. inversion H; subst. exact Hq. }
  destruct (from_documents P (d :: ds)) as [idx|e0].
  - split; [|discriminate]. cbv zeta. intros r H. inversion H; subst r st'.
    match goal with |- context [save_index_cache ?s] =>
      destruct (save_index_cache_self s) as [Hself _] end.
    simpl. rewrite Hself. simpl. exists idx. repeat split.
    destruct Hq as [_ ->]. reflexivity.
  - split; [discriminate|]. intros e H. inversion H; subst.
    exact (quiet_trans _ _ _ Hq (quiet_log _ st1)).
Qed.

Lemma initialize_steps (force_rebuild : bool) (st : State) :
  initialize P force_rebuild st
  = match build_index P force_rebuild (log MsgInitializing st) with
    | (Returns _, st1) =>
        match setup_query_engine 3 st1 with
        | (Returns _, st2) => (Returns tt, log MsgInitialized st2)
        | (Raises e, st2) => (Raises e, st2)
        end
    | (Raises e, st1) => (Raises e, st1)
    end.
Proof.
  unfold initialize. step.
  change (print MsgInitializing st) with (Returns tt, log MsgInitializing st).
  cbv iota beta. step.
  destruct (build_index P force_rebuild (log MsgInitializing st)) as [[r|e] st1];
    [|reflexivity].
  step. destruct (setup_query_engine 3 st1) as [[engine|e] st2]; reflexivity.
Qed.

Lemma setup_query_engine_with_index (k : nat) (st : State) (idx : Index) :
  index (self st) = Some idx ->
  setup_query_engine k st
  = (Returns (mkQueryEngine k),
     mkState (world st) (mkLegalChatbot (Some idx) (Some (mkQueryEngine k))) (stdout st)).
Proof.
  intros H. unfold setup_query_engine. run. rewrite H. reflexivity.
Qed.


(** X6.  What a rebuild persists is what the next start loads: when a
    forced [build_index] returns on a disk that takes the write, the
    storage folder holds the index it returned and the marker carries the
    time of the write; and if no regular file of the folder is newer than
    that, [build_index] in a new process returns the same index from the
    cache, whatever the providers. *)
Theorem rebuilt_index_round_trip (st st' : State) (r : option Index) :
  persist_fault (world st) = None ->
  build_index P true st = (Returns r, st') ->
  exists idx,
    r = Some idx
    /\ index (self st') = Some idx
    /\ storage_dir (world st') = Some (Returns idx)
    /\ index_cache_file (world st') = Some (clock (world st))
    /\ documents_dir (world st') = documents_dir (world st)
    /\ ((forall listing name f,
           documents_dir (world st) = Some listing -> In (name, f) listing ->
           is_file f = true -> (mtime f <= clock (world st))%Z) ->
        forall P', fst (build_index P' false (restarted (world st'))) = Returns (Some idx)).
Proof.
  intros Hdisk. rewrite build_index_forced.
  destruct (build_from_documents_cases st) as (st1 & [Hw Hs] & ->).
  destruct (default [] _) as [|d ds] eqn:Hdocs; [discriminate|].
  destruct (from_documents P (d :: ds)) as [idx|e]; [|discriminate].
  cbv zeta.
  erewrite save_index_cache_written; [|reflexivity|simpl; rewrite Hw; exact Hdisk].
  simpl. intros H. inversion H; subst r st'. clear H. simpl.
  exists idx. rewrite Hw.
  split; [reflexivity|]. split; [reflexivity|]. split; [reflexivity|].
  split; [reflexivity|]. split; [reflexivity|].
  intros Hold P'.
  match goal with |- fst (build_index _ _ ?s) = _ =>
    rewrite (build_index_from_cache P' s idx); [reflexivity| |reflexivity] end.
  unfold _documents_changed. simpl.
  destruct (documents_dir (world st)) as [listing|] eqn:Hdir.
  - apply newer_than_false. intros name f Hin Hfile.
    exact (Hold listing name f eq_refl Hin Hfile).
  - discriminate Hdocs.
Qed.

(** X7.  A cache that cannot be written does not fail the build: with a
    disk that refuses the write [build_index] ends as it does with a disk
    that takes it, and it leaves the marker as it was. *)
Theorem cache_write_failure_is_not_fatal (st : State) (e : Exception) :
  persist_fault (world st) = Some e ->
  fst (build_index P true st) = fst (build_index P true (with_persist_fault None st))
  /\ index_cache_file (world (snd (build_index P true st)))
     = index_cache_file (world st).
Proof.
  intros Hdisk. rewrite !build_index_forced.
  destruct (build_from_documents_cases st) as (st1 & [Hw Hs] & ->).
  destruct (build_from_documents_cases (with_persist_fault None st))
    as (st1' & [Hw' Hs'] & ->).
  change (documents_dir (world (with_persist_fault None st)))
    with (documents_dir (world st)).
  destruct (default [] _) as [|d ds]; [simpl; rewrite Hw; auto|].
  destruct (from_documents P (d :: ds)) as [idx|e0]; [|simpl; rewrite Hw; auto].
  cbv zeta.
  erewrite (save_index_cache_refused _ idx e);
    [|reflexivity|simpl; rewrite Hw; exact Hdisk].
  erewrite (save_index_cache_written _ idx);
    [|reflexivity|simpl; rewrite Hw'; reflexivity].
  simpl. split; [reflexivity|].
  rewrite Hw. destruct (storage_dir (world st)); reflexivity.
Qed.

(** X8.  When [initialize] returns, the chatbot has an index and its query
    engine, and [query] then returns an answer to every question: the
    only exception [query] propagates cannot occur any more. *)
Theorem initialize_makes_ready (force_rebuild : bool) (st st' : State) :
  initialize P force_rebuild st = (Returns tt, st') ->
  (exists idx, index (self st') = Some idx)
  /\ query_engine (self st') = Some (mkQueryEngine 3)
  /\ forall question, exists answer st'', query P question st' = (Returns answer, st'').
Proof.
  rewrite initialize_steps.
  destruct (build_index P force_rebuild (log MsgInitializing st)) as [[r|e] st1] eqn:Hbuild;
    [|discriminate].
  destruct (proj1 (build_index_ends force_rebuild _ st1) r Hbuild)
    as (idx & _ & Hidx & _).
  rewrite (setup_query_engine_with_index 3 st1 idx Hidx).
  intros H. inversion H; subst st'. simpl.
  split; [eauto|]. split; [reflexivity|].
  intros question.
  apply (query_returns_with_engine P question _ (mkQueryEngine 3)). reflexivity.
Qed.


End Persistence.


Lemma rebuilt_index_round_trip_witness :
  exists idx,
    storage_dir (world (snd (build_index Scenario.providers true Scenario.corrupt_cache)))
    = Some (Returns idx)
    /\ fst (build_index Scenario.providers_online false
              (restarted (world (snd (build_index Scenario.providers true
                                        Scenario.corrupt_cache)))))
       = Returns (Some idx).
Proof.
  destruct (rebuilt_index_round_trip Scenario.providers Scenario.corrupt_cache
              (snd (build_index Scenario.providers true Scenario.corrupt_cache))
              (Some Scenario.rebuilt_index) eq_refl)
    as (idx & _ & _ & Hstore & _ & _ & Hnext).
  - vm_compute. reflexivity.
  - exists idx. split; [exact Hstore|]. apply Hnext.
    intros listing name f Hdir Hin _. inversion Hdir; subst listing.
    destruct Hin as [Heq|[Heq|[]]]; inversion Heq; simpl; lia.
Defined.

Lemma cache_write_failure_is_not_fatal_witness :
  fst (build_index Scenario.providers true Disk.full)
  = fst (build_index Scenario.providers true (with_persist_fault None Disk.full))
  /\ index_cache_file (world (snd (build_index Scenario.providers true Disk.full)))
     = Some 100%Z.
Proof.
  apply (cache_write_failure_is_not_fatal Scenario.providers Disk.full
           (OtherError "OSError" "No space left on device") eq_refl).
Defined.

Lemma initialize_makes_ready_witness :
  exists answer,
    fst (query Scenario.providers "What is Article 21?"
           (snd (initialize Scenario.providers false Scenario.corrupt_cache)))
    = Returns answer.
Proof.
  destruct (initialize_makes_ready Scenario.providers false Scenario.corrupt_cache
              (snd (initialize Scenario.providers false Scenario.corrupt_cache)))
    as (_ & _ & Hquery).
  - vm_compute. reflexivity.
  - destruct (Hquery "What is Article 21?") as (answer & st'' & Hq).
    exists answer. rewrite Hq. reflexivity.
Defined.


(** ** More of [query] *)

Section QueryMore.

Variable P : Providers.
Variable question : string.

Lemma query_web_context_state (st : State) :
  exists web_context,
    query_web_context P question st
    = (Returns web_context,
       if should_search_web question then log MsgSearchingWeb st else st).
Proof.
  unfold query_web_context. destruct (should_search_web question).
  - step.
    change (print MsgSearchingWeb st) with (Returns tt, log MsgSearchingWeb st).
    cbv iota beta. apply get_web_context_returns.
  - eexists. reflexivity.
Qed.

Lemma query_without_engine (st : State) :
  query_engine (self st) = None ->
  query P question st = (Raises not_initialized_error, st).
Proof.
  intros Hnone. unfold query. step. unfold get_self at 1. cbv iota beta.
  rewrite Hnone. reflexivity.
Qed.

(** X10.  [query] reads and never writes: however it ends, the files, the
    index and the query engine are as before, and the output has grown by
    at most the line that announces the web search. *)
Theorem query_changes_nothing (st : State) :
  world (snd (query P question st)) = world st
  /\ self (snd (query P question st)) = self st
  /\ (stdout (snd (query P question st)) = stdout st
      \/ stdout (snd (query P question st)) = (stdout st ++ [MsgSearchingWeb])%list).
Proof.
  destruct (query_engine (self st)) as [engine|] eqn:Hengine.
  - destruct (query_web_context_state st) as [wc Hweb].
    rewrite (query_stages P question st engine wc _ Hengine Hweb).
    destruct (retrieve P _ 3 question) as [nodes|e];
      [|simpl; split; [reflexivity|split; [reflexivity|left; reflexivity]]].
    assert (forall (r : Outcome string),
              let st1 := if should_search_web question
                         then log MsgSearchingWeb st else st in
              world (snd (r, st1)) = world st /\ self (snd (r, st1)) = self st
              /\ (stdout (snd (r, st1)) = stdout st
                  \/ stdout (snd (r, st1)) = (stdout st ++ [MsgSearchingWeb])%list))
      as Hst by (intros r; destruct (should_search_web question); simpl;
                 (split; [reflexivity|split; [reflexivity|]]);
                 [right|left]; reflexivity).
    destruct (template_format P _ wc question) as [prompt|e]; [|apply Hst].
    destruct (llm_complete P prompt) as [response|e]; apply Hst.
  - rewrite (query_without_engine st Hengine).
    simpl. split; [reflexivity|split; [reflexivity|left; reflexivity]].
Qed.

(** X11.  A question without any of the keywords never reaches the search
    engine: the web slot of the prompt is the fixed "no web search" line,
    and [query] ends the same way whatever search engine is plugged in. *)
Theorem statutory_query_ignores_search (st : State) :
  should_search_web question = false ->
  query_web_context P question st = (Returns no_web_search, st)
  /\ forall search, query (with_search search P) question st = query P question st.
Proof.
  intros Hweb.
  assert (forall P', query_web_context P' question st = (Returns no_web_search, st))
    as Hctx by (intros P'; unfold query_web_context; rewrite Hweb; reflexivity).
  split; [apply Hctx|]. intros search.
  destruct (query_engine (self st)) as [engine|] eqn:Hengine.
  - rewrite (query_stages (with_search search P) question st engine _ _ Hengine (Hctx _)).
    rewrite (query_stages P question st engine _ _ Hengine (Hctx _)).
    reflexivity.
  - unfold query. step. unfold get_self at 1. cbv iota beta. rewrite Hengine.
    step. unfold get_self at 1. cbv iota beta. rewrite Hengine. reflexivity.
Qed.

End QueryMore.

Lemma statutory_query_ignores_search_witness :
  query (with_search (fun _ => Returns [Scenario.long_result]) Scenario.providers)
    "What is Article 21?" Scenario.ready
  = query Scenario.providers "What is Article 21?" Scenario.ready.
Proof.
  apply (proj2 (statutory_query_ignores_search Scenario.providers "What is Article 21?"
                  Scenario.ready eq_refl)).
Defined.

(** ** The two keyword lists: [should_search_web] and [detect_query_type] *)

Section Keywords.

Variable question : string.

Lemma occurs_in_trans (a b s : string) : occurs_in a b -> occurs_in b s -> occurs_in a s.
Proof.
  intros (p1 & q1 & ->) (p2 & q2 & ->).
  exists (p2 ++ p1), (q1 ++ q2). rewrite !append_assoc. reflexivity.
Qed.

Lemma any_keyword_in_spec (keywords : list string) (s : string) :
  web_scraper.any_keyword_in keywords s = true <->
  exists keyword, In keyword keywords /\ occurs_in keyword s.
Proof.
  unfold web_scraper.any_keyword_in. rewrite existsb_exists.
  split; intros (k & Hin & Hk); exists k; split; try assumption;
    apply contains_occurs; assumption.
Qed.

Lemma detect_recent :
  web_scraper.detect_query_type question = "recent" <->
  exists keyword,
    In keyword ["recent"; "latest"; "new"; "2024"; "2023"; "current"; "today"]
    /\ occurs_in keyword (PyStr.lower question).
Proof.
  rewrite <- any_keyword_in_spec. unfold web_scraper.detect_query_type.
  destruct (web_scraper.any_keyword_in _ (PyStr.lower question)).
  - split; reflexivity.
  - split; [|discriminate].
    repeat (destruct (web_scraper.any_keyword_in _ _); [discriminate|]).
    discriminate.
Qed.

(** X12.  The router and the scraper agree on recency: the chatbot sends a
    question to the web exactly when the scraper types it "recent" or one
    of "updated", "now" and "present" occurs in its lowered text; the
    five two-word keywords of the router never decide anything. *)
Theorem web_routing_and_query_type :
  should_search_web question = true <->
  web_scraper.detect_query_type question = "recent"
  \/ occurs_in "updated" (PyStr.lower question)
  \/ occurs_in "now" (PyStr.lower question)
  \/ occurs_in "present" (PyStr.lower question).
Proof.
  rewrite should_search_web_spec, detect_recent. split.
  - intros (k & Hin & Hk). unfold web_search_keywords in Hin. simpl in Hin.
    assert (forall short, In short ["recent"; "latest"; "new"; "2024"; "2023"; "current"; "today"] ->
              occurs_in short k ->
              exists keyword,
                In keyword ["recent"; "latest"; "new"; "2024"; "2023"; "current"; "today"]
                /\ occurs_in keyword (PyStr.lower question)) as Hvia.
    { intros short Hshort Hsk. exists short. split; [exact Hshort|].
      exact (occurs_in_trans _ _ _ Hsk Hk). }
    destruct Hin as [<-|[<-|[<-|[<-|[<-|[<-|[<-|[<-|[<-|[<-|[<-|[<-|[<-|[<-|[<-|[]]]]]]]]]]]]]]]].
    + left. apply (Hvia "recent"); [simpl; tauto|exists "", ""; reflexivity].
    + left. apply (Hvia "latest"); [simpl; tauto|exists "", ""; reflexivity].
    + left. apply (Hvia "new"); [simpl; tauto|exists "", ""; reflexivity].
    + left. apply (Hvia "2024"); [simpl; tauto|exists "", ""; reflexivity].
    + left. apply (Hvia "2023"); [simpl; tauto|exists "", ""; reflexivity].
    + left. apply (Hvia "current"); [simpl; tauto|exists "", ""; reflexivity].
    + left. apply (Hvia "today"); [simpl; tauto|exists "", ""; reflexivity].
    + left. apply (Hvia "recent"); [simpl; tauto|exists "", " case"; reflexivity].
    + left. apply (Hvia "recent"); [simpl; tauto|exists "", " judgment"; reflexivity].
    + left. apply (Hvia "latest"); [simpl; tauto|exists "", " ruling"; reflexivity].
    + left. apply (Hvia "new"); [simpl; tauto|exists "", " law"; reflexivity].
    + left. apply (Hvia "current"); [simpl; tauto|exists "", " status"; reflexivity].
    + right. left. exact Hk.
    + right. right. left. exact Hk.
    + right. right. right. exact Hk.
  - intros [(k & Hin & Hk)|[Hk|[Hk|Hk]]].
    + exists k. split; [|exact Hk]. unfold web_search_keywords.
      simpl in Hin |- *. tauto.
    + exists "updated". split; [unfold web_search_keywords; simpl; tauto|exact Hk].
    + exists "now". split; [unfold web_search_keywords; simpl; tauto|exact Hk].
    + exists "present". split; [unfold web_search_keywords; simpl; tauto|exact Hk].
Qed.

End Keywords.

(** ** More of [get_document_info] *)

Section DocumentInfoMore.

Variable store : list (string * Document).
Hypothesis distinct_ids : NoDup (map fst store).

Lemma get_document_distinct (doc_id : string) (d : Document) :
  In (doc_id, d) store -> get_document store doc_id = Returns d.
Proof.
  revert distinct_ids. induction store as [|[k d0] rest IH]; simpl; [intros _ []|].
  intros Hnodup [Heq|Hin].
  - inversion Heq; subst. rewrite String.eqb_refl. reflexivity.
  - apply NoDup_cons in Hnodup as [Hk Hrest].
    destruct (String.eqb_spec k doc_id) as [->|Hne].
    + exfalso. apply Hk. apply list_elem_of_In, in_map_iff. exists (doc_id, d). auto.
    + apply IH; assumption.
Qed.

Lemma collect_info_distinct (part : list (string * Document)) (doc_info : list DocInfo)
    (st : State) :
  (forall entry, In entry part -> In entry store) ->
  collect_info store (map fst part) doc_info st
  = (Returns (doc_info ++ map (fun entry => doc_info_of (snd entry)) part)%list, st).
Proof.
  revert doc_info. induction part as [|[k d] rest IH]; intros doc_info Hpart.
  - simpl. rewrite app_nil_r. reflexivity.
  - simpl. unfold mbind, M_bind, call.
    rewrite (get_document_distinct k d (Hpart (k, d) (or_introl eq_refl))).
    fold (doc_info_of d).
    change (collect_info store (map fst rest) (doc_info ++ [doc_info_of d]) st
            = (Returns (doc_info ++ doc_info_of d
                          :: map (fun entry => doc_info_of (snd entry)) rest)%list, st)).
    rewrite (IH (doc_info ++ [doc_info_of d])%list (fun e He => Hpart e (or_intror He))).
    rewrite <- app_assoc. reflexivity.
Qed.

End DocumentInfoMore.

(** X13.  With an index whose documents have distinct ids, as the keys of
    a dictionary are, [get_document_info] hands back the records of the
    documents of the store one for one and in the order of the store: the
    file name and the type found in the metadata, "Unknown" for a key that
    is missing, and the length of the text. *)
Theorem get_document_info_in_order (st : State) (idx : Index) :
  index (self st) = Some idx ->
  NoDup (map fst (docs idx)) ->
  get_document_info st
  = (Returns (InfoList
                (map (fun entry =>
                        mkDocInfo (default "Unknown" (metadata (snd entry) !! "filename"))
                                  (default "Unknown" (metadata (snd entry) !! "document_type"))
                                  (String.length (text (snd entry))))
                     (docs idx))), st).
Proof.
  intros Hidx Hnodup. unfold get_document_info. step. unfold get_self.
  cbv iota beta. rewrite Hidx. step.
  rewrite (collect_info_distinct (docs idx) Hnodup (docs idx) [] st (fun _ H => H)).
  reflexivity.
Qed.

Lemma get_document_info_in_order_witness :
  fst (get_document_info
         (snd (initialize Scenario.providers true Scenario.corrupt_cache)))
  = Returns (InfoList [mkDocInfo "constitution.txt" "legal_document" 24;
                       mkDocInfo "ipc.txt" "legal_document" 33]).
Proof.
  rewrite (get_document_info_in_order
             (snd (initialize Scenario.providers true Scenario.corrupt_cache))
             Scenario.rebuilt_index).
  - vm_compute. reflexivity.
  - vm_compute. reflexivity.
  - simpl. repeat constructor; rewrite list_elem_of_In; simpl; intuition discriminate.
Defined.

(** ** More of the staleness check *)

Section StalenessMore.

(** X14.  The staleness check looks at the regular files only and not at
    their order: two machines with the same marker whose folders hold the
    same regular files, listed in any order and among any sub-folders,
    get the same answer. *)
Theorem staleness_ignores_order_and_folders (w1 w2 : World)
    (l1 l2 : list (string * DirEntry)) :
  index_cache_file w1 = index_cache_file w2 ->
  documents_dir w1 = Some l1 ->
  documents_dir w2 = Some l2 ->
  Permutation (regular_files l1) (regular_files l2) ->
  _documents_changed w1 = _documents_changed w2.
Proof.
  intros Hmarker Hd1 Hd2 Hperm. unfold _documents_changed.
  rewrite Hmarker, Hd1, Hd2.
  destruct (index_cache_file w2) as [T|]; [|reflexivity].
  assert (forall la lb, Permutation (regular_files la) (regular_files lb) ->
            newer_than T la = true -> newer_than T lb = true) as Hone.
  { intros la lb Hp Ha. apply newer_than_true in Ha as (name & f & Hin & Hf & Hm).
    apply newer_than_true. exists name, f. split; [|auto].
    assert (In (name, f) (regular_files la)) as Hreg
      by (apply filter_In; auto).
    apply (Permutation_in _ Hp) in Hreg. apply filter_In in Hreg. tauto. }
  destruct (newer_than T l1) eqn:E1, (newer_than T l2) eqn:E2; try reflexivity.
  - rewrite (Hone l1 l2 Hperm E1) in E2. discriminate.
  - symmetry in Hperm. rewrite (Hone l2 l1 Hperm E2) in E1. discriminate.
Qed.

End StalenessMore.

Lemma staleness_ignores_order_and_folders_witness :
  _documents_changed
    (Scenario.cached_world
       [Scenario.penal_code;
        ("drafts", mkDirEntry false 500 (Raises (OtherError "IsADirectoryError" "drafts")));
        Scenario.constitution])
  = _documents_changed (Scenario.cached_world Scenario.at_build).
Proof.
  apply (staleness_ignores_order_and_folders
           (Scenario.cached_world
              [Scenario.penal_code;
               ("drafts", mkDirEntry false 500 (Raises (OtherError "IsADirectoryError" "drafts")));
               Scenario.constitution])
           (Scenario.cached_world Scenario.at_build)
           [Scenario.penal_code;
            ("drafts", mkDirEntry false 500 (Raises (OtherError "IsADirectoryError" "drafts")));
            Scenario.constitution]
           Scenario.at_build eq_refl eq_refl eq_refl).
  apply perm_swap.
Defined.

(** ** The scraper: [google_search_legal] *)

Section Scraper.

Variable W : Web.

Lemma in_firstn {A} (n : nat) (l : list A) (x : A) : In x (firstn n l) -> In x l.
Proof.
  revert l. induction n as [|n IH]; intros [|a l]; simpl; try tauto.
  intros [->|H]; auto.
Qed.

Lemma collect_trusted_inv (n : nat) (items : list string) (fl : option Exception)
    (urls r : list string) :
  WebScraper.collect_trusted W n items fl urls = Returns r ->
  Forall (fun u => WebScraper.is_trusted_source W u = true) urls ->
  Forall (fun u => WebScraper.is_trusted_source W u = true) r
  /\ (forall u, In u r -> In u urls \/ In u items)
  /\ (length r < n ->
      r = (urls ++ List.filter (WebScraper.is_trusted_source W) items)%list).
Proof.
  revert urls. induction items as [|url rest IH]; intros urls Hrun Hurls.
  - simpl in Hrun. destruct fl; [discriminate|]. inversion Hrun; subst r.
    simpl. rewrite app_nil_r. auto.
  - simpl in Hrun |- *.
    destruct (WebScraper.is_trusted_source W url) eqn:Htrust.
    + assert (Forall (fun u => WebScraper.is_trusted_source W u = true) (urls ++ [url]))
        as Hurls' by (apply Forall_app; split; [exact Hurls|repeat constructor; exact Htrust]).
      destruct (n <=? length (urls ++ [url]))%nat eqn:Hfull.
      * inversion Hrun; subst r. apply Nat.leb_le in Hfull.
        split; [exact Hurls'|]. split; [|lia].
        intros u Hu. apply in_app_or in Hu as [Hu|[<-|[]]]; auto.
      * destruct (IH _ Hrun Hurls') as (Hall & Hfrom & Hexact).
        split; [exact Hall|]. split.
        -- intros u Hu. destruct (Hfrom u Hu) as [Hin|Hin]; [|auto].
           apply in_app_or in Hin as [Hin|[<-|[]]]; auto.
        -- intros Hlen. rewrite (Hexact Hlen), <- app_assoc. reflexivity.
    + destruct (IH _ Hrun Hurls) as (Hall & Hfrom & Hexact).
      split; [exact Hall|]. split; [|exact Hexact].
      intros u Hu. destruct (Hfrom u Hu); auto.
Qed.

Lemma collect_broader_inv (n : nat) (items : list string) (fl : option Exception)
    (urls r : list string) :
  WebScraper.collect_broader n items fl urls = Returns r ->
  (forall u, In u r -> In u urls \/ In u items)
  /\ (n <= length urls -> r = urls)
  /\ exists extra, r = (urls ++ extra)%list.
Proof.
  revert urls. induction items as [|url rest IH]; intros urls Hrun.
  - simpl in Hrun. destruct fl; [discriminate|]. inversion Hrun; subst r.
    split; [auto|]. split; [auto|]. exists []. rewrite app_nil_r. reflexivity.
  - simpl in Hrun.
    destruct (negb (bool_decide (url ∈ urls)) && (length urls <? n)%nat) eqn:Hadd.
    + apply andb_true_iff in Hadd as [_ Hroom]. apply Nat.ltb_lt in Hroom.
      destruct (IH _ Hrun) as (Hfrom & _ & extra & ->).
      split; [|split; [lia|]].
      * intros u Hu. destruct (Hfrom u Hu) as [Hin|Hin]; [|simpl; auto].
        apply in_app_or in Hin as [Hin|[<-|[]]]; simpl; auto.
      * exists (url :: extra). rewrite <- app_assoc. reflexivity.
    + destruct (IH _ Hrun) as (Hfrom & Hfull & Hextra).
      split; [|split; [exact Hfull|exact Hextra]].
      intros u Hu. destruct (Hfrom u Hu); simpl; auto.
Qed.

(** X15.  [google_search_legal] never raises and returns at most
    [num_results] URLs, each one yielded by the focused or by the broader
    search; and it returns a URL that is not from a trusted source only
    when the focused search yielded fewer than three trusted ones. *)
Theorem google_search_legal_result (query : string) (num_results : nat) :
  exists urls,
    WebScraper.google_search_legal W query num_results = Returns urls
    /\ length urls <= num_results
    /\ (forall u, In u urls ->
          In u (yielded (google W (focused_query query) (num_results * 2)))
          \/ In u (yielded (google W (broader_query query) 10)))
    /\ ((exists u, In u urls /\ WebScraper.is_trusted_source W u = false) ->
        length (List.filter (WebScraper.is_trusted_source W)
                  (yielded (google W (focused_query query) (num_results * 2)))) < 3).
Proof.
  unfold WebScraper.google_search_legal.
  fold (focused_query query). fold (broader_query query).
  set (first := google W (focused_query query) (num_results * 2)).
  set (second := google W (broader_query query) 10).
  assert (exists urls : list string,
            Returns [] = Returns urls /\ length urls <= num_results
            /\ (forall u, In u urls -> In u (yielded first) \/ In u (yielded second))
            /\ ((exists u, In u urls /\ WebScraper.is_trusted_source W u = false) ->
                length (List.filter (WebScraper.is_trusted_source W) (yielded first)) < 3))
    as Hempty.
  { exists []. split; [reflexivity|]. split; [simpl; lia|].
    split; [intros u []|]. intros (u & [] & _). }
  unfold rescue, mbind, Outcome_bind, mret, Outcome_ret.
  destruct (WebScraper.collect_trusted W num_results (yielded first) (failure first) [])
    as [r1|e1] eqn:Hfirst; [|exact Hempty].
  destruct (collect_trusted_inv _ _ _ _ _ Hfirst (List.Forall_nil _)) as (Htrust & Hfrom1 & Hexact).
  destruct (length r1 <? 3)%nat eqn:Hfew.
  - destruct (WebScraper.collect_broader num_results (yielded second) (failure second) r1)
      as [r2|e2] eqn:Hsecond; [|exact Hempty].
    destruct (collect_broader_inv _ _ _ _ _ Hsecond) as (Hfrom2 & Hfull & extra & Hr2).
    exists (firstn num_results r2). split; [reflexivity|].
    split; [rewrite length_firstn; lia|]. split.
    + intros u Hu. apply in_firstn in Hu.
      destruct (Hfrom2 u Hu) as [Hin|Hin]; [|auto].
      destruct (Hfrom1 u Hin) as [[]|Hin1]. auto.
    + intros (u & Hu & Hbad). apply in_firstn in Hu.
      destruct (Nat.le_gt_cases num_results (length r1)) as [Hle|Hgt].
      * rewrite (Hfull Hle) in Hu.
        rewrite Forall_forall in Htrust. apply list_elem_of_In in Hu.
        rewrite (Htrust u Hu) in Hbad. discriminate.
      * rewrite (Hexact Hgt) in Hfew. simpl in Hfew.
        apply Nat.ltb_lt in Hfew. exact Hfew.
  - exists (firstn num_results r1). split; [reflexivity|].
    split; [rewrite length_firstn; lia|]. split.
    + intros u Hu. apply in_firstn in Hu.
      destruct (Hfrom1 u Hu) as [[]|Hin1]. auto.
    + intros (u & Hu & Hbad). apply in_firstn in Hu.
      rewrite Forall_forall in Htrust. apply list_elem_of_In in Hu.
      rewrite (Htrust u Hu) in Hbad. discriminate.
Qed.

Lemma google_search_legal_bounded (query : string) (num_results : nat) :
  exists urls,
    WebScraper.google_search_legal W query num_results = Returns urls
    /\ length urls <= num_results.
Proof.
  unfold WebScraper.google_search_legal, rescue, mbind, Outcome_bind, mret, Outcome_ret.
  destruct (WebScraper.collect_trusted W num_results _ _ []) as [r1|e1];
    [|exists []; split; [reflexivity|simpl; lia]].
  destruct (length r1 <? 3)%nat.
  - destruct (WebScraper.collect_broader num_results _ _ r1) as [r2|e2];
      [|exists []; split; [reflexivity|simpl; lia]].
    eexists. split; [reflexivity|]. rewrite length_firstn. lia.
  - eexists. split; [reflexivity|]. rewrite length_firstn. lia.
Qed.

(** X16.  The trust test is a substring test on the lowered host name:
    a host that merely holds the name of a trusted source, in any case and
    at any place, is trusted; and a URL that cannot be parsed is not. *)
Theorem is_trusted_source_by_substring (url host trusted pre post : string) :
  netloc W url = Returns host ->
  In trusted WebScraper.trusted_sources ->
  PyStr.lower host = pre ++ trusted ++ post ->
  WebScraper.is_trusted_source W url = true
  /\ forall (W' : Web) e, netloc W' url = Raises e ->
                          WebScraper.is_trusted_source W' url = false.
Proof.
  intros Hhost Hin Hocc. split.
  - unfold WebScraper.is_trusted_source. rewrite Hhost.
    apply existsb_exists. exists trusted. split; [exact Hin|].
    apply contains_occurs. exists pre, post. exact Hocc.
  - intros W' e He. unfold WebScraper.is_trusted_source. rewrite He. reflexivity.
Qed.

Lemma take_length_le (n : nat) (s : string) : String.length (PyStr.take n s) <= n.
Proof.
  revert s. induction n as [|n IH]; intros [|c s]; simpl; try lia.
  specialize (IH s). lia.
Qed.

(** The two ways [extract_text_from_url] returns. *)
Lemma extract_text_from_url_cases (address : string) (s : Snippet) :
  WebScraper.extract_text_from_url W address = Returns s ->
  (exists title_text content_text host,
      page W address = Returns (title_text, content_text)
      /\ s = mkSnippet address title_text (PyStr.take 3000 content_text) host)
  \/ (exists host, s = mkSnippet address "Error loading page"
                         WebScraper.error_page_content host).
Proof.
  unfold WebScraper.extract_text_from_url, rescue, mbind, Outcome_bind, mret, Outcome_ret.
  destruct (page W address) as [[title_text content_text]|e].
  - destruct (netloc W address) as [host|e] eqn:Hhost.
    + intros H. inversion H. left. eauto.
    + destruct address; [|discriminate].
      intros H. inversion H. right. eauto.
  - destruct address as [|c rest].
    + intros H. inversion H. right. eauto.
    + destruct (netloc W (String c rest)); [|discriminate].
      intros H. inversion H. right. eauto.
Qed.

(** X17.  For a URL that can be parsed, [extract_text_from_url] raises
    nothing whatever the page does: it hands back a record for that URL
    whose content has at most 3000 characters, and when the page cannot be
    fetched the record is the "error page" one. *)
Theorem extract_text_from_url_result (address host : string) :
  netloc W address = Returns host ->
  exists s,
    WebScraper.extract_text_from_url W address = Returns s
    /\ url s = address
    /\ (address <> "" -> source s = host)
    /\ String.length (content s) <= 3000
    /\ (forall e, page W address = Raises e ->
          title s = "Error loading page"
          /\ content s = WebScraper.error_page_content).
Proof.
  intros Hhost.
  unfold WebScraper.extract_text_from_url, rescue, mbind, Outcome_bind, mret, Outcome_ret.
  destruct (page W address) as [[title_text content_text]|e0]; rewrite ?Hhost.
  - eexists. split; [reflexivity|]. cbn [url source content title].
    split; [reflexivity|]. split; [reflexivity|].
    split; [apply take_length_le|]. discriminate.
  - destruct address as [|c rest]; rewrite ?Hhost.
    + eexists. split; [reflexivity|]. cbn [url source content title].
      split; [reflexivity|]. split; [congruence|]. split; [simpl; lia|auto].
    + eexists. split; [reflexivity|]. cbn [url source content title].
      split; [reflexivity|]. split; [reflexivity|]. split; [simpl; lia|auto].
Qed.

Lemma extract_all_inv (urls : list string) (results found : list Snippet) :
  WebScraper.extract_all W urls results = Returns found ->
  exists kept,
    found = (results ++ kept)%list
    /\ length kept <= length urls
    /\ Forall (fun s =>
                 100 < String.length (content s)
                 /\ exists title_text content_text,
                      page W (url s) = Returns (title_text, content_text)
                      /\ title s = title_text
                      /\ content s = PyStr.take 3000 content_text) kept.
Proof.
  revert results found.
  induction urls as [|address rest IH]; intros results found Hrun.
  - simpl in Hrun. inversion Hrun. exists []. rewrite app_nil_r.
    split; [reflexivity|]. split; [simpl; lia|constructor].
  - simpl in Hrun. unfold mbind, Outcome_bind in Hrun.
    destruct (WebScraper.extract_text_from_url W address) as [s|e] eqn:Hs;
      [|discriminate].
    destruct (negb (String.eqb (content s) "") && (100 <? String.length (content s))%nat)
      eqn:Hkeep.
    + destruct (IH _ _ Hrun) as (kept & -> & Hlen & Hall).
      exists (s :: kept). split; [rewrite <- app_assoc; reflexivity|].
      split; [simpl; lia|]. constructor; [|exact Hall].
      apply andb_true_iff in Hkeep as [_ Hlong]. apply Nat.ltb_lt in Hlong.
      split; [exact Hlong|].
      destruct (extract_text_from_url_cases address s Hs)
        as [(t & c & host & Hpage & ->)|(host & ->)].
      * exists t, c. cbn [url source content title]. auto.
      * simpl in Hlong. lia.
    + destruct (IH _ _ Hrun) as (kept & -> & Hlen & Hall).
      exists kept. split; [reflexivity|]. split; [simpl; lia|exact Hall].
Qed.

Lemma search_recent_cases_inv (query : string) (found : list Snippet) :
  WebScraper.search_recent_cases W query = Returns found ->
  length found <= 5
  /\ Forall (fun s =>
               100 < String.length (content s)
               /\ exists title_text content_text,
                    page W (url s) = Returns (title_text, content_text)
                    /\ title s = title_text
                    /\ content s = PyStr.take 3000 content_text) found.
Proof.
  unfold WebScraper.search_recent_cases, mbind, Outcome_bind.
  destruct (google_search_legal_bounded query 5) as (urls & -> & Hfive).
  destruct urls as [|u us].
  - intros H. inversion H. split; [simpl; lia|constructor].
  - intros Hrun. destruct (extract_all_inv _ _ _ Hrun) as (kept & -> & Hlen & Hall).
    simpl app. split; [lia|exact Hall].
Qed.

(** X18.  When [search_recent_cases] returns, it returns at most five
    results, and each of them is what its page really holds: the page was
    fetched, the title is the page's, and the content is the first 3000
    characters of the page's text and has more than 100 characters.  The
    record of a page that could not be fetched is never among them. *)
Theorem search_recent_cases_results (query : string) (found : list Snippet) :
  WebScraper.search_recent_cases W query = Returns found ->
  length found <= 5
  /\ Forall (fun s =>
               100 < String.length (content s) <= 3000
               /\ content s <> WebScraper.error_page_content
               /\ exists title_text content_text,
                    page W (url s) = Returns (title_text, content_text)
                    /\ title s = title_text
                    /\ content s = PyStr.take 3000 content_text) found.
Proof.
  intros Hrun. destruct (search_recent_cases_inv query found Hrun) as [Hfive Hall].
  split; [exact Hfive|].
  eapply List.Forall_impl; [|exact Hall]. cbv beta.
  intros s (Hlong & t & c & Hpage & Ht & Hc).
  split; [split; [exact Hlong|rewrite Hc; apply take_length_le]|].
  split; [|eauto]. intros Hbad. rewrite Hbad in Hlong. simpl in Hlong. lia.
Qed.

Lemma search_each_inv (queries : list string) (all_results found : list Snippet) :
  WebScraper.search_each W queries all_results = Returns found ->
  Forall (fun s => 100 < String.length (content s)) all_results ->
  Forall (fun s => 100 < String.length (content s)) found.
Proof.
  revert all_results. induction queries as [|query rest IH]; intros all_results Hrun Hacc.
  - simpl in Hrun. unfold mret, Outcome_ret in Hrun.
    inversion Hrun; subst. exact Hacc.
  - cbn [WebScraper.search_each] in Hrun.
    unfold mbind, Outcome_bind, mret, Outcome_ret in Hrun.
    destruct (WebScraper.search_recent_cases W query) as [results|e] eqn:Hq;
      [|discriminate].
    assert (Forall (fun s => 100 < String.length (content s)) (all_results ++ results))
      as Hacc'.
    { apply Forall_app. split; [exact Hacc|].
      destruct (search_recent_cases_inv query results Hq) as [_ Hall].
      eapply List.Forall_impl; [|exact Hall]. cbv beta. tauto. }
    destruct (5 <=? length (all_results ++ results))%nat.
    + inversion Hrun; subst. exact Hacc'.
    + exact (IH _ Hrun Hacc').
Qed.

Lemma unique_by_url_inv (all_results unique_results : list Snippet) (seen_urls : gset string) :
  NoDup (map url unique_results) ->
  (forall u, u ∈ seen_urls <-> In u (map url unique_results)) ->
  NoDup (map url (WebScraper.unique_by_url all_results unique_results seen_urls))
  /\ (forall s, In s (WebScraper.unique_by_url all_results unique_results seen_urls) ->
        In s unique_results \/ In s all_results).
Proof.
  revert unique_results seen_urls.
  induction all_results as [|result rest IH]; intros unique_results seen_urls Hnodup Hseen.
  - simpl. split; [exact Hnodup|]. auto.
  - simpl. destruct (bool_decide (url result ∈ seen_urls)) eqn:Hdec.
    + destruct (IH unique_results seen_urls Hnodup Hseen) as (Hn & Hfrom).
      split; [exact Hn|].
      intros s Hs. destruct (Hfrom s Hs); auto.
    + apply bool_decide_eq_false in Hdec.
      destruct (IH (unique_results ++ [result])%list ({[url result]} ∪ seen_urls))
        as (Hn & Hfrom).
      * rewrite map_app. simpl. apply NoDup_app. split; [exact Hnodup|].
        split; [|apply NoDup_singleton].
        intros u Hu Hu'. apply list_elem_of_singleton in Hu'. subst u.
        apply Hdec, Hseen, list_elem_of_In, Hu.
      * intros u. rewrite map_app, in_app_iff. simpl.
        rewrite elem_of_union, elem_of_singleton, Hseen. intuition.
      * split; [exact Hn|].
        intros s Hs. destruct (Hfrom s Hs) as [Hin|Hin]; [|auto].
        apply in_app_or in Hin as [Hin|[<-|[]]]; auto.
Qed.

(** X19.  When [search_case_law] returns, it returns at most five results,
    no two of them for the same URL, and each with a content of more than
    100 characters. *)
Theorem search_case_law_results (case_name_or_topic : string) (found : list Snippet) :
  WebScraper.search_case_law W case_name_or_topic = Returns found ->
  length found <= 5
  /\ NoDup (map url found)
  /\ Forall (fun s => 100 < String.length (content s)) found.
Proof.
  unfold WebScraper.search_case_law, mbind, Outcome_bind, mret, Outcome_ret.
  destruct (WebScraper.search_each W _ []) as [all_results|e] eqn:Hall; [|discriminate].
  intros H. inversion H; subst found. clear H.
  destruct (unique_by_url_inv all_results [] ∅ (NoDup_nil_2 : NoDup (map url [])))
    as (Hnodup & Hfrom).
  { intros u. simpl. set_solver. }
  split; [rewrite length_firstn; lia|]. split.
  - rewrite <- firstn_map.
    rewrite <- (firstn_skipn 5 (map url _)) in Hnodup.
    apply NoDup_app in Hnodup as [Hn _]. exact Hn.
  - pose proof (search_each_inv _ _ _ Hall (List.Forall_nil _)) as Hlong.
    rewrite List.Forall_forall in Hlong |- *.
    intros s Hs. apply in_firstn in Hs.
    destruct (Hfrom s Hs) as [[]|Hin]. exact (Hlong s Hin).
Qed.

End Scraper.

Example google_search_legal_on_net :
  WebScraper.google_search_legal Net.web "bail" 5
  = Returns ["https://www.livelaw.in/a"; "https://indiankanoon.org/b";
             "https://news.example/n"; "https://main.sci.gov.in/c"]
  /\ WebScraper.google_search_legal Net.web "bail" 1 = Returns ["https://www.livelaw.in/a"].
Proof. split; vm_compute; reflexivity. Qed.

Lemma is_trusted_source_by_substring_witness :
  WebScraper.is_trusted_source Net.web "https://www.livelaw.in/a" = true.
Proof.
  apply (proj1 (is_trusted_source_by_substring Net.web "https://www.livelaw.in/a"
                  "www.LiveLaw.in" "livelaw.in" "www." "" eq_refl
                  ltac:(simpl; tauto) eq_refl)).
Defined.

Lemma extract_text_from_url_result_witness :
  exists s,
    WebScraper.extract_text_from_url Net.web "https://indiankanoon.org/b" = Returns s
    /\ title s = "Error loading page"
    /\ content s = WebScraper.error_page_content.
Proof.
  destruct (extract_text_from_url_result Net.web "https://indiankanoon.org/b"
              "indiankanoon.org" eq_refl) as (s & Hrun & _ & _ & _ & Hfail).
  exists s. split; [exact Hrun|]. apply (Hfail Scenario.net_down). reflexivity.
Defined.

Lemma search_recent_cases_results_witness :
  length NetResults.found <= 5
  /\ Forall (fun s =>
               100 < String.length (content s) <= 3000
               /\ content s <> WebScraper.error_page_content
               /\ exists title_text content_text,
                    page Net.web (url s) = Returns (title_text, content_text)
                    /\ title s = title_text
                    /\ content s = PyStr.take 3000 content_text) NetResults.found.
Proof.
  apply (search_recent_cases_results Net.web "bail" NetResults.found).
  vm_compute. reflexivity.
Defined.

Lemma search_case_law_results_witness :
  length NetResults.found <= 5
  /\ NoDup (map url NetResults.found)
  /\ Forall (fun s => 100 < String.length (content s)) NetResults.found.
Proof.
  apply (search_case_law_results Net.web "bail" NetResults.found).
  vm_compute. reflexivity.
Defined.

(** ** More of the index lifecycle *)

Section LifecycleMore.

Variable P : Providers.

(** X20.  When [rebuild_index] returns, the index of the chatbot is the
    one the provider made of the documents the loader finds in the folder
    now, there is at least one such document, and the query engine is set
    up: what was stored before plays no part. *)
Theorem rebuild_indexes_the_folder (st st' : State) :
  rebuild_index P st = (Returns tt, st') ->
  exists (documents : list Document) (idx : Index),
    fst (document_processor.process_all_documents st) = Returns documents
    /\ documents <> []
    /\ from_documents P documents = Returns idx
    /\ index (self st') = Some idx
    /\ query_engine (self st') = Some (mkQueryEngine 3).
Proof.
  unfold rebuild_index. step.
  change (print MsgRebuilding st) with (Returns tt, log MsgRebuilding st). cbv iota beta.
  rewrite initialize_steps, build_index_forced.
  destruct (build_from_documents_cases P (log MsgInitializing (log MsgRebuilding st)))
    as (st1 & [Hw Hs] & ->).
  destruct (process_all_documents_spec st) as (st0 & Hload & _).
  rewrite Hload. cbn [fst].
  change (world (log MsgInitializing (log MsgRebuilding st))) with (world st).
  destruct (documents_dir (world st)) as [listing|];
    [|intros H; discriminate H].
  unfold default, from_option, id, fmap, option_fmap, option_map. cbv beta iota.
  destruct (documents_of listing) as [|d ds]; [intros H; discriminate H|].
  destruct (from_documents P (d :: ds)) as [idx|e] eqn:Hbuilt;
    [|intros H; discriminate H].
  cbv zeta iota.
  match goal with |- context [save_index_cache ?s] =>
    destruct (save_index_cache_self s) as [Hself _] end.
  erewrite setup_query_engine_with_index;
    [|cbn [log self]; rewrite Hself; reflexivity].
  intros H. inversion H; subst st'. cbn [log self index query_engine].
  exists (d :: ds), idx.
  split; [reflexivity|]. split; [discriminate|]. split; [exact Hbuilt|].
  split; reflexivity.
Qed.

(** X21.  A marker without a storage folder is no cache: with the corpus
    unchanged since the marker was written and [./storage] missing,
    [build_index] rebuilds exactly as a forced rebuild does, and without
    any warning. *)
Theorem marker_without_storage_rebuilds (st : State) :
  _documents_changed (world st) = false ->
  storage_dir (world st) = None ->
  build_index P false st = build_index P true st.
Proof.
  intros Hfresh Hstore. rewrite build_index_forced.
  unfold build_index. run. rewrite Hfresh. simpl.
  unfold load_cached_index. run. rewrite Hstore. reflexivity.
Qed.

End LifecycleMore.

Lemma rebuild_indexes_the_folder_witness :
  exists documents idx,
    fst (document_processor.process_all_documents Scenario.boot) = Returns documents
    /\ from_documents Scenario.providers documents = Returns idx
    /\ index (self (snd (rebuild_index Scenario.providers Scenario.boot))) = Some idx.
Proof.
  destruct (rebuild_indexes_the_folder Scenario.providers Scenario.boot
              (snd (rebuild_index Scenario.providers Scenario.boot)))
    as (documents & idx & Hload & _ & Hbuilt & Hidx & _).
  - vm_compute. reflexivity.
  - exists documents, idx. auto.
Defined.

Lemma marker_without_storage_rebuilds_witness :
  build_index Scenario.providers false NetResults.storage_gone
  = build_index Scenario.providers true NetResults.storage_gone.
Proof.
  apply (marker_without_storage_rebuilds Scenario.providers NetResults.storage_gone
           eq_refl eq_refl).
Defined.

Lemma web_routing_and_query_type_witness :
  should_search_web "Where does the appeal stand now?" = true.
Proof.
  apply (proj2 (web_routing_and_query_type "Where does the appeal stand now?")).
  right. right. left. exists "where does the appeal stand ", "?". reflexivity.
Defined.

(** ** The scraper behind the chatbot *)

Section ScraperBehindChatbot.

Variable W : Web.
Variable P : Providers.

(** Every URL can be parsed. *)
Hypothesis parsed : forall address, exists host, netloc W address = Returns host.

Lemma extract_text_from_url_returns (address : string) :
  exists s, WebScraper.extract_text_from_url W address = Returns s.
Proof.
  destruct (parsed address) as [host Hhost].
  unfold WebScraper.extract_text_from_url, rescue, mbind, Outcome_bind, mret, Outcome_ret.
  destruct (page W address) as [[title_text content_text]|e]; rewrite ?Hhost.
  - eauto.
  - destruct address; rewrite ?Hhost; eauto.
Qed.

Lemma extract_all_returns (urls : list string) (results : list Snippet) :
  exists found, WebScraper.extract_all W urls results = Returns found.
Proof.
  revert results. induction urls as [|address rest IH]; intros results.
  - eexists. reflexivity.
  - cbn [WebScraper.extract_all]. unfold mbind, Outcome_bind.
    destruct (extract_text_from_url_returns address) as [s ->].
    destruct (_ && _); apply IH.
Qed.

(** X22.  On a network whose URLs can all be parsed the scraper fails on
    nothing: plugged into the chatbot, [comprehensive_legal_search]
    returns for every question, with at most five results and their count
    as [total_results], so [get_web_context] never has an error to
    report. *)
Theorem scraper_never_fails (question : string) (st : State) :
  exists sr,
    web_scraper.comprehensive_legal_search
      (with_search (WebScraper.search_recent_cases W) P) question st
    = (Returns sr, st)
    /\ length (results sr) <= 5
    /\ total_results sr = length (results sr)
    /\ forall e, fst (get_web_context (with_search (WebScraper.search_recent_cases W) P)
                        question st)
                 <> Returns ("Error retrieving web information: " ++ str e).
Proof.
  assert (forall query, exists found,
            WebScraper.search_recent_cases W query = Returns found
            /\ length found <= 5) as Hsearch.
  { intros query.
    destruct (google_search_legal_bounded W query 5) as (urls & Hurls & Hfive).
    unfold WebScraper.search_recent_cases, mbind, Outcome_bind. rewrite Hurls.
    destruct urls as [|u us]; [exists []; split; [reflexivity|simpl; lia]|].
    destruct (extract_all_returns (u :: us) []) as [found Hfound].
    exists found. split; [exact Hfound|].
    destruct (extract_all_inv W _ _ _ Hfound) as (kept & -> & Hlen & _).
    simpl in *. lia. }
  unfold web_scraper.comprehensive_legal_search.
  set (search_query := if String.eqb _ "recent" then _ else _).
  destruct (Hsearch search_query) as (found & Hfound & Hfive).
  exists (mkSearchResults (web_scraper.detect_query_type question) found (length found)).
  assert (web_scraper.comprehensive_legal_search
            (with_search (WebScraper.search_recent_cases W) P) question st
          = (Returns (mkSearchResults (web_scraper.detect_query_type question) found
                        (length found)), st)) as Hrun.
  { unfold web_scraper.comprehensive_legal_search. fold search_query.
    unfold mbind, M_bind, call, mret, M_ret. cbn [search_recent_cases with_search].
    rewrite Hfound. reflexivity. }
  split; [exact Hrun|]. split; [exact Hfive|]. split; [reflexivity|].
  intros e.
  rewrite (get_web_context_found _ question st _ (f_equal fst Hrun)).
  cbn [fst results].
  destruct found as [|r1 rest]; [intros H; inversion H|].
  intros H. inversion H as [Heq]. revert Heq.
  destruct rest; cbn [fold_left enumerate firstn]; rewrite ?add_result_block;
    unfold web_context_header;
    rewrite ?append_assoc;
    intros Heq;
    apply (f_equal (fun t => PyStr.take 1 t)) in Heq; discriminate Heq.
Qed.

End ScraperBehindChatbot.

Lemma scraper_never_fails_witness :
  exists sr,
    web_scraper.comprehensive_legal_search
      (with_search (WebScraper.search_recent_cases Net.web) Scenario.providers)
      "latest bail ruling" Scenario.ready
    = (Returns sr, Scenario.ready)
    /\ length (results sr) <= 5.
Proof.
  destruct (scraper_never_fails Net.web Scenario.providers) with
    (question := "latest bail ruling") (st := Scenario.ready)
    as (sr & Hrun & Hfive & _).
  - intros address. unfold Net.web. cbn [netloc].
    repeat (destruct (PyStr.contains _ address); [eexists; reflexivity|]).
    eexists; reflexivity.
  - exists sr. split; assumption.
Defined.
